(** * Profile-page extraction of [fetch_users.py]

    A shallow embedding of [parse_user_profile] (src/fetch_users.py, lines
    74-170) and the properties of the extraction pipeline.

    Python strings are modelled as [string]: a character is a code point
    below 256.  The HTML parser and [urllib.parse.urljoin] are external
    collaborators; the embedding takes them as parameters of the section
    that holds the extraction code and works on the parsed tree. *)

From Stdlib Require Import Ascii NArith.
From stdpp Require Import base option list strings pretty gmap fin_maps.

(** ** Python string methods used by the extractor *)

Module PyStr.

(** [str.isspace] on a single character, as [str.strip()] uses it: the
    ASCII controls 9-13 and 28-31, the space, and NEL and NBSP. *)
Definition isspace (c : ascii) : bool :=
  let n := N_of_ascii c in
  ((9 <=? n) && (n <=? 13) || (28 <=? n) && (n <=? 32)
   || (n =? 133) || (n =? 160))%N.

(** [str.lower] on a single character of the Latin-1 range. *)
Definition lower_char (c : ascii) : ascii :=
  let n := N_of_ascii c in
  if ((65 <=? n) && (n <=? 90)
      || (192 <=? n) && (n <=? 222) && negb (n =? 215))%N
  then ascii_of_N (n + 32) else c.

Fixpoint lower (s : string) : string :=
  match s with
  | "" => ""
  | String c s' => String (lower_char c) (lower s')
  end.

Fixpoint lstrip_by (p : ascii -> bool) (s : string) : string :=
  match s with
  | "" => ""
  | String c s' => if p c then lstrip_by p s' else s
  end.

Fixpoint rstrip_by (p : ascii -> bool) (s : string) : string :=
  match s with
  | "" => ""
  | String c s' =>
      match rstrip_by p s' with
      | "" => if p c then "" else String c ""
      | r => String c r
      end
  end.

Fixpoint mem_char (c : ascii) (chars : string) : bool :=
  match chars with
  | "" => false
  | String d chars' => Ascii.eqb c d || mem_char c chars'
  end.

(** [s.strip()] *)
Definition strip (s : string) : string := rstrip_by isspace (lstrip_by isspace s).

(** [s.rstrip(chars)] *)
Definition rstrip (chars s : string) : string := rstrip_by (fun c => mem_char c chars) s.

(** [s.startswith(p)] *)
Fixpoint startswith (p s : string) : bool :=
  match p, s with
  | "", _ => true
  | String a p', String b s' => Ascii.eqb a b && startswith p' s'
  | String _ _, "" => false
  end.

(** [sub in s] *)
Fixpoint contains (sub s : string) : bool :=
  startswith sub s ||
  match s with
  | "" => false
  | String _ s' => contains sub s'
  end.

(** [s.replace(old, new)] for a non-empty [old]: occurrences are found
    from the left and do not overlap.  [skip] counts the characters of
    the occurrence under the cursor that are still to be dropped. *)
Fixpoint replace_from (old new : string) (skip : nat) (s : string) : string :=
  match s with
  | "" => ""
  | String c s' =>
      match skip with
      | S k => replace_from old new k s'
      | O =>
          if startswith old s
          then new +:+ replace_from old new (String.length old - 1) s'
          else String c (replace_from old new 0 s')
      end
  end.

(** With an empty [old] Python puts [new] before every character and at
    the end. *)
Fixpoint intersperse (new s : string) : string :=
  match s with
  | "" => new
  | String c s' => new +:+ String c (intersperse new s')
  end.

Definition replace (old new s : string) : string :=
  match old with
  | "" => intersperse new s
  | _ => replace_from old new 0 s
  end.

(** [sep.join(l)] *)
Definition join (sep : string) (l : list string) : string := String.concat sep l.

(** [s.split(sep)] for a separator of one character: the pieces between
    the separators, one piece for a string without any. *)
Fixpoint split (sep : ascii) (s : string) : list string :=
  match s with
  | "" => [""]
  | String c s' =>
      if Ascii.eqb c sep then "" :: split sep s'
      else match split sep s' with
           | piece :: pieces => String c piece :: pieces
           | [] => [String c ""]
           end
  end.

(** [s.split(sep, 1)] for a separator of one character: the string is cut
    at the first separator only. *)
Fixpoint split_once (sep : ascii) (s : string) : list string :=
  match s with
  | "" => [""]
  | String c s' =>
      if Ascii.eqb c sep then [""; s']
      else match split_once sep s' with
           | piece :: pieces => String c piece :: pieces
           | [] => [String c ""]
           end
  end.

(** [s.endswith(p)] *)
Fixpoint endswith (p s : string) : bool :=
  String.eqb p s ||
  match s with
  | "" => false
  | String _ s' => endswith p s'
  end.

End PyStr.

(** ** The parsed document tree *)

(** A node of the tree the HTML parser hands over.  [class] is the one
    attribute the extractor reads that the parser splits into a list of
    tokens; it is kept apart from the string-valued attributes, and is
    [None] when the element has no [class] attribute. *)
#[warnings="-register-all"]
Inductive node : Type :=
| NavigableString (s : string)
| Comment (s : string)
| Tag (name : string) (class : option (list string))
      (attrs : list (string * string)) (contents : list node).

(** [tag.descendants]: every node below [n], in document order. *)
Fixpoint descendants (n : node) : list node :=
  match n with
  | Tag _ _ _ cs =>
      (fix go (l : list node) : list node :=
         match l with
         | [] => []
         | c :: l' => c :: descendants c ++ go l'
         end) cs
  | _ => []
  end.

(** [tag.text]: the strings below [n] joined, comments left out. *)
Fixpoint text (n : node) : string :=
  match n with
  | NavigableString s => s
  | Comment _ => ""
  | Tag _ _ _ cs =>
      (fix go (l : list node) : string :=
         match l with
         | [] => ""
         | c :: l' => text c +:+ go l'
         end) cs
  end.

(** [tag.find_all(...)] and [tag.find(...)] with the search criteria as a
    boolean matcher; [find] is the first result of [find_all]. *)
Definition find_all (p : node -> bool) (n : node) : list node :=
  filter (fun d => p d = true) (descendants n).

Definition find (p : node -> bool) (n : node) : option node :=
  head (find_all p n).

Fixpoint assoc (k : string) (l : list (string * string)) : option string :=
  match l with
  | [] => None
  | (k', v) :: l' => if String.eqb k k' then Some v else assoc k l'
  end.

(** [tag.get(key)]: [None] when the attribute is missing. *)
Definition get (key : string) (n : node) : option string :=
  match n with
  | Tag _ _ attrs _ => assoc key attrs
  | _ => None
  end.

(** [tag.get('class')] *)
Definition get_class (n : node) : option (list string) :=
  match n with
  | Tag _ cl _ _ => cl
  | _ => None
  end.

(** Search criteria.  [named] is the tag-name test ([find('h1')], or a
    list of names); [has_class c] is [class_=c], which holds when one token
    equals [c] or the whole attribute does; [has_class_attr] is
    [class_=True]. *)
Definition named (names : list string) (n : node) : bool :=
  match n with
  | Tag nm _ _ _ => existsb (String.eqb nm) names
  | _ => false
  end.

Definition has_class (c : string) (n : node) : bool :=
  match get_class n with
  | Some cl => existsb (String.eqb c) cl || String.eqb (PyStr.join " " cl) c
  | None => false
  end.

Definition has_class_attr (n : node) : bool :=
  match get_class n with
  | Some _ => true
  | None => false
  end.

Definition attr_is (key value : string) (n : node) : bool :=
  match get key n with
  | Some v => String.eqb v value
  | None => false
  end.

Definition attr_test (key : string) (f : string -> bool) (n : node) : bool :=
  match get key n with
  | Some v => f v
  | None => false
  end.

(** Truth value of [tag.get(key)]: a missing attribute and an empty one are
    both false. *)
Definition truthy (o : option string) : bool :=
  match o with
  | Some "" | None => false
  | Some _ => true
  end.

(** ** Exceptions *)

Inductive exn : Type :=
| KeyError (key : string).

Inductive result (A : Type) : Type :=
| Ok (a : A)
| Raise (e : exn).
Arguments Ok {A} a.
Arguments Raise {A} e.

Global Instance result_ret : MRet result := fun A a => Ok a.
Global Instance result_bind : MBind result := fun A B f r =>
  match r with
  | Ok a => f a
  | Raise e => Raise e
  end.

(** [tag[key]]: raises [KeyError] when the attribute is missing. *)
Definition getitem (key : string) (n : node) : result string :=
  match get key n with
  | Some v => Ok v
  | None => Raise (KeyError key)
  end.

(** ** The user record *)

(** Content of one entry of [user_data['sections']]: the key/value mapping
    of a definition list, the rows of a table, or the text of a sub-panel. *)
Inductive section_content : Type :=
| KeyValues (section_data : gmap string string)
| Rows (table_data : list (list string))
| PlainText (s : string).

(** The dictionary [user_data].  The keys that the extractor adds only
    when it finds something are optional fields. *)
Record user_record : Type := UserRecord {
  id_ : string;
  profile_url : string;
  page_title : option string;
  full_name : option string;
  avatar_url : option string;
  email : option string;
  username : option string;
  details : gmap string string;
  sections : gmap string section_content
}.

Definition set_page_title (v : string) (u : user_record) : user_record :=
  UserRecord (id_ u) (profile_url u) (Some v) (full_name u) (avatar_url u)
           (email u) (username u) (details u) (sections u).
Definition set_full_name (v : string) (u : user_record) : user_record :=
  UserRecord (id_ u) (profile_url u) (page_title u) (Some v) (avatar_url u)
           (email u) (username u) (details u) (sections u).
Definition set_avatar_url (v : string) (u : user_record) : user_record :=
  UserRecord (id_ u) (profile_url u) (page_title u) (full_name u) (Some v)
           (email u) (username u) (details u) (sections u).
Definition set_email (v : string) (u : user_record) : user_record :=
  UserRecord (id_ u) (profile_url u) (page_title u) (full_name u) (avatar_url u)
           (Some v) (username u) (details u) (sections u).
Definition set_username (v : string) (u : user_record) : user_record :=
  UserRecord (id_ u) (profile_url u) (page_title u) (full_name u) (avatar_url u)
           (email u) (Some v) (details u) (sections u).
(** [user_data['details'][k] = v] and [user_data['sections'][k] = c] *)
Definition set_detail (k v : string) (u : user_record) : user_record :=
  UserRecord (id_ u) (profile_url u) (page_title u) (full_name u) (avatar_url u)
           (email u) (username u) (<[k:=v]> (details u)) (sections u).
Definition set_section (k : string) (c : section_content) (u : user_record) : user_record :=
  UserRecord (id_ u) (profile_url u) (page_title u) (full_name u) (avatar_url u)
           (email u) (username u) (details u) (<[k:=c]> (sections u)).

(** ** Sessions, responses and saved users *)

(** What the script sets on a [requests.Session]. *)
Record session : Type := Session {
  session_cookies : gmap string string;
  auth : option (string * string);
  headers : gmap string string
}.

(** The [User-Agent] of line 46. *)
Definition user_agent : string :=
  "Mozilla/5.0 (Macintosh; Intel Mac OS X 10_15_7) AppleWebKit/537.36".

(** What the script reads of a [requests.Response]. *)
Record response : Type := Response {
  status_code : nat;
  response_url : string;
  response_text : string;
  response_content : string
}.

(** A record of [all_users]: the extracted record and the key
    [avatar_filename] that [main] adds after a download. *)
Record saved_user : Type := SavedUser {
  saved_record : user_record;
  avatar_filename : option string
}.

(** The network and the file system, as the script uses them.
    [session_get] is [session.get(url, timeout=30)]: it returns [None] when
    the request raises a [RequestException].  [write_file] is the
    [with open(filepath, 'wb')] block of lines 193-194 and tells whether it
    went through.  [path_join] is the [/] of [pathlib]. *)
Class World : Type := {
  net_state : Type;
  fs_state : Type;
  session_get : session -> string -> net_state -> option response * net_state;
  write_file : string -> string -> fs_state -> bool * fs_state;
  path_join : string -> string -> string
}.

(** ** Library calls that may raise *)

(** What a run of the script can raise: an exception of the code's own
    subscript reads, the [ValueError] of [urllib.parse.urljoin] and of
    [time.sleep], the [OverflowError] of [time.sleep], or the
    [ParserRejectedMarkup] of [BeautifulSoup]. *)
Inductive exception : Type :=
| Builtin (e : exn)
| ValueError
| OverflowError
| ParserRejectedMarkup.

Inductive outcome (A : Type) : Type :=
| Returned (a : A)
| Thrown (e : exception).
Arguments Returned {A} a.
Arguments Thrown {A} e.

Global Instance outcome_ret : MRet outcome := fun A a => Returned a.
Global Instance outcome_bind : MBind outcome := fun A B f r =>
  match r with
  | Returned a => f a
  | Thrown e => Thrown e
  end.

Definition of_result {A : Type} (r : result A) : outcome A :=
  match r with
  | Ok a => Returned a
  | Raise e => Thrown (Builtin e)
  end.

(** The library calls of the script with their raising runs:
    [BeautifulSoup_call] is [BeautifulSoup(html_content, 'html.parser')],
    [None] when it raises [ParserRejectedMarkup]; [urljoin_call] is
    [urljoin(base, url)], [None] when it raises [ValueError];
    [time_sleep_call] is [time.sleep(DELAY_SECONDS)] of line 253, which
    refuses a negative delay with [ValueError] and one that is too large
    with [OverflowError]. *)
Class Library : Type := {
  BeautifulSoup_call : string -> option node;
  urljoin_call : string -> string -> option string;
  time_sleep_call : outcome ()
}.

(** ** Example documents *)

(** [urljoin] on a base without a path and a reference that starts with a
    single slash and has no dot segments: the reference follows the base. *)
Definition urljoin_origin (base ref : string) : string := base +:+ ref.

(** The default tracker of line 13 and the URL that [fetch_user_profile]
    builds for the user [jane]. *)
Definition default_JIRA_SERVER : string := "https://issues.jenkins.io".

Definition jane_url : string :=
  "https://issues.jenkins.io/secure/ViewProfile.jspa?name=jane".

Definition element (name : string) (contents : list node) : node :=
  Tag name None [] contents.

Definition document (contents : list node) : node :=
  Tag "[document]" None [] contents.

Definition page (body : list node) : node :=
  document [element "html" [element "body" body]].

Definition definition_list_of (items : list (string * string)) : node :=
  element "dl"
    (items ≫= fun '(name, kv) => [element name [NavigableString kv]]).

(** A page without any marker. *)
Definition plain_html : string :=
  "<html><body><p>Nothing to see</p></body></html>".

Definition plain_page : node :=
  page [element "p" [NavigableString "Nothing to see"]].

(** A user-logo image without [src], before an Avatar image with one. *)
Definition logo_without_src_html : string :=
  "<html><body><img class='userLogo' alt='logo'><img alt='User Avatar' src='/avatars/jane.png'></body></html>".

Definition logo_without_src_page : node :=
  page [Tag "img" (Some ["userLogo"]) [("alt", "logo")] [];
        Tag "img" None [("alt", "User Avatar"); ("src", "/avatars/jane.png")] []].

(** A mailto link whose target holds the scheme a second time. *)
Definition mailto_twice_html : string :=
  "<html><body><a href='mailto:jane@example.com?subject=mailto:links'>Jane</a></body></html>".

Definition mailto_twice_page : node :=
  page [Tag "a" None [("href", "mailto:jane@example.com?subject=mailto:links")]
            [NavigableString "Jane"]].

(** The profile page of the specification's end-to-end example. *)
Definition jane_html : string :=
  "<html><head><title>Profile: Jane Doe</title></head><body><h1>Jane Doe</h1><a href='mailto:jane@example.com'>mail</a><dl><dt>Email</dt><dd>jane@example.com</dd></dl></body></html>".

Definition jane_page : node :=
  document
    [element "html"
       [element "head" [element "title" [NavigableString "Profile: Jane Doe"]];
        element "body"
          [element "h1" [NavigableString "Jane Doe"];
           Tag "a" None [("href", "mailto:jane@example.com")] [NavigableString "mail"];
           definition_list_of [("dt", "Email"); ("dd", "jane@example.com")]]]].

(** A definition list whose only key is written with an underscore. *)
Definition underscore_key_html : string :=
  "<html><body><dl><dt>full_name</dt><dd>Jane Doe</dd></dl></body></html>".

Definition underscore_key_page : node :=
  page [definition_list_of [("dt", "full_name"); ("dd", "Jane Doe")]].

(** A definition list with two terms and one description:
    [<dl><dt>Email:</dt><dd> jane@example.com </dd><dt>Groups:</dt></dl>]. *)
Definition uneven_list : node :=
  definition_list_of [("dt", "Email:"); ("dd", " jane@example.com "); ("dt", "Groups:")].

(** A definition list with a pair, then one without any. *)
Definition two_lists_html : string :=
  "<html><body><dl><dt>Email:</dt><dd>jane@example.com</dd></dl><dl><dt>Groups:</dt></dl></body></html>".

Definition full_list : node :=
  definition_list_of [("dt", "Email:"); ("dd", "jane@example.com")].

Definition two_lists_page : node :=
  page [full_list; definition_list_of [("dt", "Groups:")]].

(** A table without rows, then a table whose first row has no cell. *)
Definition two_tables_html : string :=
  "<html><body><table></table><table><tr></tr><tr><th> Name </th><td>Jane</td></tr></table></body></html>".

Definition cells_table : node :=
  element "table"
    [element "tr" [];
     element "tr" [element "th" [NavigableString " Name "];
                   element "td" [NavigableString "Jane"]]].

Definition two_tables_page : node :=
  page [element "table" []; cells_table].

(** The parser on the example documents: each text with its tree, and the
    empty document for any other text. *)
Definition example_pages : list (string * node) :=
  [(plain_html, plain_page);
   (logo_without_src_html, logo_without_src_page);
   (mailto_twice_html, mailto_twice_page);
   (jane_html, jane_page);
   (underscore_key_html, underscore_key_page);
   (two_lists_html, two_lists_page);
   (two_tables_html, two_tables_page)].

Fixpoint lookup_page (html_content : string) (pages : list (string * node)) : node :=
  match pages with
  | [] => document []
  | (html, tree) :: pages' =>
      if String.eqb html_content html then tree else lookup_page html_content pages'
  end.

Definition html_parser (html_content : string) : node :=
  lookup_page html_content example_pages.

(** A definition list that gives the key [Email] twice:
    [<dl><dt>Email</dt><dd>old@example.com</dd><dt>Email</dt><dd>new@example.com</dd></dl>]. *)
Definition repeated_key_list : node :=
  definition_list_of [("dt", "Email"); ("dd", "old@example.com");
                      ("dt", "Email"); ("dd", "new@example.com")].

(** A small tracker for the examples.  The page of [jane] shows a user-logo
    image; [loginov] is answered with the page itself, [bob] with the
    login page, [ghost] with a 404; no other URL answers. *)
Definition avatar_html : string :=
  "<html><body><img class='userLogo' src='/avatars/jane.png'><h1>Jane Doe</h1></body></html>".

Definition avatar_page : node :=
  page [Tag "img" (Some ["userLogo"]) [("src", "/avatars/jane.png")] [];
        element "h1" [NavigableString "Jane Doe"]].

(** A definition list, then a profile container whose only subsection has
    the class [profile_details]. *)
Definition panel_html : string :=
  "<html><body><dl><dt>Email:</dt><dd>jane@example.com</dd></dl><div id='user-profile-panel'><div class='profile_details'> About Jane </div></div></body></html>".

Definition about_subsection : node :=
  Tag "div" (Some ["profile_details"]) [] [NavigableString " About Jane "].

Definition panel_page : node :=
  page [full_list; Tag "div" None [("id", "user-profile-panel")] [about_subsection]].

Definition site_parser (html_content : string) : node :=
  if String.eqb html_content avatar_html then avatar_page
  else if String.eqb html_content panel_html then panel_page
  else html_parser html_content.

Definition example_site : list (string * response) :=
  [(jane_url, Response 200 jane_url avatar_html avatar_html);
   ("https://issues.jenkins.io/secure/ViewProfile.jspa?id=JIRAUSER134221",
    Response 200 "https://issues.jenkins.io/secure/ViewProfile.jspa?id=JIRAUSER134221"
             jane_html jane_html);
   ("https://issues.jenkins.io/avatars/jane.png",
    Response 200 "https://issues.jenkins.io/avatars/jane.png" "" "PNG");
   ("https://issues.jenkins.io/secure/ViewProfile.jspa?name=loginov",
    Response 200 "https://issues.jenkins.io/secure/ViewProfile.jspa?name=loginov"
             jane_html jane_html);
   ("https://issues.jenkins.io/secure/ViewProfile.jspa?name=bob",
    Response 200 "https://issues.jenkins.io/login.jsp" "Log in to Jira" "");
   ("https://issues.jenkins.io/secure/ViewProfile.jspa?name=ghost",
    Response 404 "https://issues.jenkins.io/secure/ViewProfile.jspa?name=ghost" "" "")].

Fixpoint lookup_response (url : string) (site : list (string * response))
  : option response :=
  match site with
  | [] => None
  | (u, r) :: site' => if String.eqb url u then Some r else lookup_response url site'
  end.

(** The world of the examples: the state of the network is the list of the
    URLs requested so far, the file system maps a path to its content, and
    every write goes through. *)
Definition example_world : World := {|
  net_state := list string;
  fs_state := gmap string string;
  session_get := fun _ url requested => (lookup_response url example_site, requested ++ [url]);
  write_file := fun path content files => (true, <[path:=content]> files);
  path_join := fun dir name => dir +:+ "/" +:+ name
|}.

Definition plain_session : session := Session ∅ None ∅.

(** A page whose only heading is an [h2]. *)
Definition h2_only_html : string :=
  "<html><body><h2>Jane Doe</h2></body></html>".

Definition h2_only_page : node :=
  page [element "h2" [NavigableString "Jane Doe"]].

(** A user-logo image whose [src] is a slash, a tab, a slash and an opening
    bracket; the page writes the tab as a character reference. *)
Definition tab_reference : string := String "/" (String "009"%char "/[").

Definition tab_src_html : string :=
  "<html><body><img class='userLogo' src='/&#9;/['></body></html>".

Definition tab_src_page : node :=
  page [Tag "img" (Some ["userLogo"]) [("src", tab_reference)] []].

(** A text that the parser rejects. *)
Definition rejected_html : string := "<![x]>".

Definition edge_parser (html_content : string) : node :=
  if String.eqb html_content tab_src_html then tab_src_page
  else if String.eqb html_content h2_only_html then h2_only_page
  else site_parser html_content.

(** [urljoin] as far as the examples need it.  [urlsplit] drops every tab,
    carriage return and line feed of the reference; a reference that then
    starts with "//" has a network location up to the next "/", "?" or "#",
    and a location with one of "[" and "]" but not the other is refused
    with [ValueError].  Any other reference follows the base. *)
Fixpoint remove_unsafe (s : string) : string :=
  match s with
  | "" => ""
  | String c s' =>
      if Ascii.eqb c "009"%char || Ascii.eqb c "010"%char || Ascii.eqb c "013"%char
      then remove_unsafe s' else String c (remove_unsafe s')
  end.

Fixpoint netloc (s : string) : string :=
  match s with
  | "" => ""
  | String c s' =>
      if Ascii.eqb c "/" || Ascii.eqb c "?" || Ascii.eqb c "#" then ""
      else String c (netloc s')
  end.

Definition example_urljoin (base url : string) : option string :=
  match remove_unsafe url with
  | String "/" (String "/" rest) =>
      if xorb (PyStr.contains "[" (netloc rest)) (PyStr.contains "]" (netloc rest))
      then None else Some (urljoin_origin base (remove_unsafe url))
  | cleaned => Some (urljoin_origin base cleaned)
  end.

(** The libraries of the examples, with the delay 0.5 of line 17. *)
Definition example_library : Library := {|
  BeautifulSoup_call := fun html_content =>
    if String.eqb html_content rejected_html then None
    else Some (edge_parser html_content);
  urljoin_call := example_urljoin;
  time_sleep_call := Returned ()
|}.

(** The same libraries when [DELAY_SECONDS] is set to [-1]. *)
Definition negative_delay_library : Library := {|
  BeautifulSoup_call := BeautifulSoup_call (Library := example_library);
  urljoin_call := example_urljoin;
  time_sleep_call := Thrown ValueError
|}.

(** The tracker of the examples with two more users: the page of [tab] has
    the image of [tab_src_html], the page of [broken] is [rejected_html]. *)
Definition edge_site : list (string * response) :=
  [("https://issues.jenkins.io/secure/ViewProfile.jspa?name=tab",
    Response 200 "https://issues.jenkins.io/secure/ViewProfile.jspa?name=tab"
             tab_src_html tab_src_html);
   ("https://issues.jenkins.io/secure/ViewProfile.jspa?name=broken",
    Response 200 "https://issues.jenkins.io/secure/ViewProfile.jspa?name=broken"
             rejected_html rejected_html)] ++ example_site.

Definition edge_world : World := {|
  net_state := list string;
  fs_state := gmap string string;
  session_get := fun _ url requested => (lookup_response url edge_site, requested ++ [url]);
  write_file := fun path content files => (true, <[path:=content]> files);
  path_join := fun dir name => dir +:+ "/" +:+ name
|}.

(** [urljoin] and [BeautifulSoup] as total functions with the values that
    the calls of a library return. *)
Definition urljoin_of `{Library} (base url : string) : string :=
  default "" (urljoin_call base url).

Definition BeautifulSoup_of `{Library} (html_content : string) : node :=
  default (document []) (BeautifulSoup_call html_content).

(** ** The extraction code *)

(** The labels a definition-list key is compared with (line 135). *)
Definition common_fields : list string :=
  ["username"; "full name"; "email"; "groups"; "login count"; "last login"].

(** [f'table_{i}'] *)
Definition table_key (i : nat) : string := "table_" +:+ pretty i.

Section Extraction.

(** [JIRA_SERVER], read from the environment when the module loads. *)
Variable JIRA_SERVER : string.
(** [urllib.parse.urljoin] and [BeautifulSoup(html_content, 'html.parser')]
    on the runs in which they return; [parse_user_profile_call] below has
    the runs in which they raise. *)
Variable urljoin : string -> string -> string.
Variable BeautifulSoup : string -> node.

(** Lines 86-88. *)
Definition extract_page_title (soup : node) (user_data : user_record) : user_record :=
  match find (named ["title"]) soup with
  | Some title => set_page_title (PyStr.strip (text title)) user_data
  | None => user_data
  end.

(** Lines 91-93: the heading with the [page-title] class, else the first
    [h1]. *)
Definition profile_heading (soup : node) : option node :=
  match find (fun n => named ["h1"] n && has_class "page-title" n) soup with
  | Some h => Some h
  | None => find (named ["h1"]) soup
  end.

(** Lines 95-96. *)
Definition extract_full_name (soup : node) (user_data : user_record) : user_record :=
  match profile_heading soup with
  | Some h => set_full_name (PyStr.strip (text h)) user_data
  | None => user_data
  end.

(** Lines 99-101: the image with the [userLogo] class, else the first
    image whose [alt] is non-empty and contains "Avatar". *)
Definition avatar_img (soup : node) : option node :=
  match find (fun n => named ["img"] n && has_class "userLogo" n) soup with
  | Some img => Some img
  | None =>
      find (fun n => named ["img"] n &&
                     attr_test "alt" (fun x => negb (String.eqb x "") &&
                                               PyStr.contains "Avatar" x) n) soup
  end.

(** Lines 105-108. *)
Definition normalize_avatar_url (avatar_url : string) : string :=
  if PyStr.startswith "//" avatar_url then "https:" +:+ avatar_url
  else if PyStr.startswith "/" avatar_url then urljoin JIRA_SERVER avatar_url
  else avatar_url.

(** Lines 103-109. *)
Definition extract_avatar (soup : node) (user_data : user_record) : result user_record :=
  match avatar_img soup with
  | Some img =>
      if truthy (get "src" img)
      then avatar_url ← getitem "src" img;
           mret (set_avatar_url (normalize_avatar_url avatar_url) user_data)
      else mret user_data
  | None => mret user_data
  end.

(** Lines 112-114: [re.compile(r'^mailto:')] is searched in the [href]
    value, so it matches the values that start with "mailto:". *)
Definition extract_email (soup : node) (user_data : user_record) : result user_record :=
  match find (fun n => named ["a"] n &&
                       attr_test "href" (PyStr.startswith "mailto:") n) soup with
  | Some mailto_link =>
      href ← getitem "href" mailto_link;
      mret (set_email (PyStr.replace "mailto:" "" href) user_data)
  | None => mret user_data
  end.

(** Lines 117-119. *)
Definition extract_username (soup : node) (user_data : user_record) : user_record :=
  match find (fun n => named ["span"] n && has_class "user-hover" n) soup with
  | Some username_elem =>
      let v := match get "data-username" username_elem with
               | Some v => if String.eqb v "" then PyStr.strip (text username_elem) else v
               | None => PyStr.strip (text username_elem)
               end in
      set_username v user_data
  | None => user_data
  end.

(** Lines 129-131: [zip(dt_elements, dd_elements)] with the key and the
    value of each pair. *)
Definition pair_up (dt_elements dd_elements : list node) : list (string * string) :=
  (fun '(dt, dd) => (PyStr.rstrip ":" (PyStr.strip (text dt)), PyStr.strip (text dd)))
    <$> zip dt_elements dd_elements.

(** Lines 126-131, for one definition list. *)
Definition dl_pairs (dl : node) : list (string * string) :=
  pair_up (find_all (named ["dt"]) dl) (find_all (named ["dd"]) dl).

(** Lines 132-136: the body of the inner loop, on the loop state
    [(section_data, user_data)]. *)
Definition store_pair (st : gmap string string * user_record) (kv : string * string)
  : gmap string string * user_record :=
  let '(section_data, user_data) := st in
  let '(key, value) := kv in
  let section_data := <[key:=value]> section_data in
  if bool_decide (PyStr.lower key ∈ common_fields)
  then (section_data,
        set_detail (PyStr.replace " " "_" (PyStr.lower key)) value user_data)
  else (section_data, user_data).

(** Lines 125-139: the body of the outer loop, on the pairs of the list. *)
Definition store_pairs (user_data : user_record) (pairs : list (string * string))
  : user_record :=
  let '(section_data, user_data) := foldl store_pair (∅, user_data) pairs in
  if bool_decide (section_data = ∅) then user_data
  else set_section "profile_details" (KeyValues section_data) user_data.

Definition definition_list (user_data : user_record) (dl : node) : user_record :=
  store_pairs user_data (dl_pairs dl).

(** Lines 123-139. *)
Definition definition_lists (soup : node) (user_data : user_record) : user_record :=
  foldl definition_list user_data (find_all (named ["dl"]) soup).

(** Lines 144-151: the rows of one table. *)
Definition table_rows (table : node) : list (list string) :=
  foldl (fun table_data row =>
           match find_all (named ["td"; "th"]) row with
           | [] => table_data
           | cells => table_data ++ [(fun cell => PyStr.strip (text cell)) <$> cells]
           end)
        [] (find_all (named ["tr"]) table).

(** Lines 143-154: the loop over [enumerate(tables)], from index [i]. *)
Fixpoint tables_from (i : nat) (tables : list node) (user_data : user_record) : user_record :=
  match tables with
  | [] => user_data
  | table :: tables' =>
      let user_data :=
        match table_rows table with
        | [] => user_data
        | table_data => set_section (table_key i) (Rows table_data) user_data
        end in
      tables_from (S i) tables' user_data
  end.

(** Lines 142-154. *)
Definition tables (soup : node) (user_data : user_record) : user_record :=
  tables_from 0 (find_all (named ["table"]) soup) user_data.

(** Lines 158-160. *)
Definition user_profile_div (soup : node) : option node :=
  match find (fun n => named ["div"] n && attr_is "id" "user-profile-panel" n) soup with
  | Some d => Some d
  | None => find (fun n => named ["div"] n && has_class "profile-panel" n) soup
  end.

(** Lines 166-168: the body of the loop over the subsections. *)
Definition sub_panel (user_data : user_record) (subsection : node) : user_record :=
  let class_name := PyStr.join " " (default [] (get_class subsection)) in
  if negb (String.eqb class_name "") &&
     negb (String.eqb (PyStr.strip (text subsection)) "")
  then set_section class_name (PlainText (PyStr.strip (text subsection))) user_data
  else user_data.

(** Lines 162-168. *)
Definition sub_panels (soup : node) (user_data : user_record) : user_record :=
  match user_profile_div soup with
  | Some d =>
      foldl sub_panel user_data
            (find_all (fun n => named ["div"; "section"] n && has_class_attr n) d)
  | None => user_data
  end.

(** Lines 74-170. *)
Definition parse_user_profile (html_content user_id profile_url : string)
  : result user_record :=
  let soup := BeautifulSoup html_content in
  let user_data :=
    UserRecord user_id profile_url None None None None None ∅ ∅ in
  let user_data := extract_page_title soup user_data in
  let user_data := extract_full_name soup user_data in
  user_data ← extract_avatar soup user_data;
  user_data ← extract_email soup user_data;
  let user_data := extract_username soup user_data in
  let user_data := definition_lists soup user_data in
  let user_data := tables soup user_data in
  let user_data := sub_panels soup user_data in
  mret user_data.

(** *** Vocabulary of the properties *)

(** The scalar entries of a record. *)
Definition scalars (u : user_record) :=
  (id_ u, profile_url u, page_title u, full_name u, avatar_url u, email u, username u).

(** The markers the extractor looks for: a title, a heading, a user-logo
    or Avatar image, a mailto link, a user-hover element, a definition
    list, a table, a profile container. *)
Definition recognized_marker (n : node) : bool :=
  named ["title"] n
  || named ["h1"] n
  || (named ["img"] n && has_class "userLogo" n)
  || (named ["img"] n &&
      attr_test "alt" (fun x => negb (String.eqb x "") && PyStr.contains "Avatar" x) n)
  || (named ["a"] n && attr_test "href" (PyStr.startswith "mailto:") n)
  || (named ["span"] n && has_class "user-hover" n)
  || named ["dl"] n
  || named ["table"] n
  || (named ["div"] n && attr_is "id" "user-profile-panel" n)
  || (named ["div"] n && has_class "profile-panel" n).

(** The keys of [details] the specification lists, and the key a
    definition-list key is filed under. *)
Definition recognized_keys : list string :=
  ["username"; "full_name"; "email"; "groups"; "login_count"; "last_login"].

Definition normalized_key (key : string) : string :=
  PyStr.replace " " "_" (PyStr.lower key).

(** Every pair the definition-block pass handles, in the order it
    handles them. *)
Definition paired (soup : node) : list (string * string) :=
  dl ← find_all (named ["dl"]) soup; dl_pairs dl.

(** The [details] that a list of pairs leaves, from the [details] [d]. *)
Definition file_details (d : gmap string string) (pairs : list (string * string))
  : gmap string string :=
  foldl (fun d kv =>
           if bool_decide (PyStr.lower kv.1 ∈ common_fields)
           then <[normalized_key kv.1:=kv.2]> d else d) d pairs.

(** The mapping [section_data] that a list of pairs builds. *)
Definition section_data_of (pairs : list (string * string)) : gmap string string :=
  foldl (fun m kv => <[kv.1:=kv.2]> m) ∅ pairs.

(** The trimmed cell texts of a table row. *)
Definition row_cells (row : node) : list string :=
  (fun cell => PyStr.strip (text cell)) <$> find_all (named ["td"; "th"]) row.

(** The section keys the sub-panel pass writes. *)
Definition sub_panel_labels (soup : node) : list string :=
  match user_profile_div soup with
  | Some d =>
      omap (fun subsection =>
              let class_name := PyStr.join " " (default [] (get_class subsection)) in
              if negb (String.eqb class_name "") &&
                 negb (String.eqb (PyStr.strip (text subsection)) "")
              then Some class_name else None)
           (find_all (fun n => named ["div"; "section"] n && has_class_attr n) d)
  | None => []
  end.

(** Line 164: the subsections of the profile container, none without a
    container. *)
Definition subsections (soup : node) : list node :=
  match user_profile_div soup with
  | Some d => find_all (fun n => named ["div"; "section"] n && has_class_attr n) d
  | None => []
  end.

(** Lines 166-168: the key and the text that a subsection is stored with,
    [None] for a subsection that is skipped. *)
Definition sub_panel_entry (subsection : node) : option (string * string) :=
  let class_name := PyStr.join " " (default [] (get_class subsection)) in
  if negb (String.eqb class_name "") &&
     negb (String.eqb (PyStr.strip (text subsection)) "")
  then Some (class_name, PyStr.strip (text subsection)) else None.

(** The text of a cookie string with the given names and values, in the
    format of the comment of line 30. *)
Definition cookie_header (pairs : list (string * string)) : string :=
  PyStr.join "; " ((fun '(name, value) => name +:+ "=" +:+ value) <$> pairs).

(** *** Session set-up, fetching, avatar download and the main loop *)

(** Lines 33-35: the body of the loop over the pieces of the cookie string.
    The result is [None] when the unpacking into [name, value] raises
    [ValueError]. *)
Definition store_cookie (cookies : gmap string string) (cookie : string)
  : option (gmap string string) :=
  if PyStr.contains "=" cookie then
    match PyStr.split_once "=" (PyStr.strip cookie) with
    | [name; value] => Some (<[name:=value]> cookies)
    | _ => None
    end
  else Some cookies.

(** Lines 32-35. *)
Fixpoint store_cookies (cookies : gmap string string) (pieces : list string)
  : option (gmap string string) :=
  match pieces with
  | [] => Some cookies
  | cookie :: pieces' =>
      cookies ← store_cookie cookies cookie;
      store_cookies cookies pieces'
  end.

(** [RequestsCookieJar.set_cookie], reached from
    [session.cookies.update(cookies)] of line 36: a value that starts and
    ends with a double quote loses every backslash followed by a double
    quote. *)
Definition double_quote : string := String "034"%char "".

Definition double_quoted (value : string) : bool :=
  PyStr.startswith double_quote value && PyStr.endswith double_quote value.

Definition set_cookie_value (value : string) : string :=
  if double_quoted value then PyStr.replace ("\" +:+ double_quote) "" value
  else value.

Definition jar_update (cookies jar : gmap string string) : gmap string string :=
  (set_cookie_value <$> cookies) ∪ jar.

(** A value between double quotes that holds a backslash followed by a
    double quote: the letter x, these two, then the letter y. *)
Definition quoted_value : string :=
  double_quote +:+ "x\" +:+ double_quote +:+ "y" +:+ double_quote.

(** Lines 25-49, with [JIRA_COOKIE], [JIRA_USERNAME] and [JIRA_PASSWORD]
    (lines 20-22, read from the environment when the module loads) and the
    headers of a new [requests.Session()] as arguments.  The session is new
    on every call: no cookie, no credentials, the default headers. *)
Definition get_session (JIRA_COOKIE JIRA_USERNAME JIRA_PASSWORD : string)
    (default_headers : gmap string string) : option session :=
  let session := Session ∅ None default_headers in
  session ←
    (if negb (String.eqb JIRA_COOKIE "") then
       cookies ← store_cookies ∅ (PyStr.split ";" JIRA_COOKIE);
       Some (Session (jar_update cookies (session_cookies session)) (auth session)
                     (headers session))
     else if negb (String.eqb JIRA_USERNAME "") && negb (String.eqb JIRA_PASSWORD "")
     then Some (Session (session_cookies session)
                        (Some (JIRA_USERNAME, JIRA_PASSWORD)) (headers session))
     else Some session);
  Some (Session (session_cookies session) (auth session)
                (<["User-Agent":=user_agent]> (headers session))).

(** [response.raise_for_status()] raises for the status codes 400 to 599. *)
Definition http_error (r : response) : bool :=
  (400 <=? status_code r) && (status_code r <? 600).

(** Lines 55-56. *)
Definition profile_request_url (user_id : string) : string :=
  let param := if PyStr.startswith "JIRAUSER" user_id then "id" else "name" in
  JIRA_SERVER +:+ "/secure/ViewProfile.jspa?" +:+ param +:+ "=" +:+ user_id.

(** Lines 52-71.  A [RequestException] of the request or of the status
    check is caught; an exception of [parse_user_profile] is not. *)
Definition fetch_user_profile `{World} (session : session) (user_id : string) (net : net_state)
  : result (option user_record) * net_state :=
  let url := profile_request_url user_id in
  match session_get session url net with
  | (Some response, net) =>
      if http_error response then (Ok None, net)
      else if PyStr.contains "login" (PyStr.lower (response_url response))
              || PyStr.contains "Log in to Jira" (response_text response)
      then (Ok None, net)
      else (match parse_user_profile (response_text response) user_id url with
            | Ok user_data => Ok (Some user_data)
            | Raise e => Raise e
            end, net)
  | (None, net) => (Ok None, net)
  end.

(** Lines 180-184. *)
Definition avatar_extension (avatar_url : string) : string :=
  if PyStr.contains ".jpg" avatar_url || PyStr.contains ".jpeg" avatar_url then ".jpg"
  else if PyStr.contains ".gif" avatar_url then ".gif"
  else ".png".

(** Lines 173-201.  Every exception of the [try] block is caught. *)
Definition download_avatar `{World} (session : session) (user_id avatar_url avatars_dir : string)
    (w : net_state * fs_state) : option string * (net_state * fs_state) :=
  let '(net, fs) := w in
  if String.eqb avatar_url "" then (None, w)
  else
    let ext := avatar_extension avatar_url in
    let filename := user_id +:+ ext in
    let filepath := path_join avatars_dir filename in
    match session_get session avatar_url net with
    | (Some response, net) =>
        if http_error response then (None, (net, fs))
        else
          let '(written, fs) := write_file filepath (response_content response) fs in
          (if written then Some filename else None, (net, fs))
    | (None, net) => (None, (net, fs))
    end.

(** Line 216: the ids of the lines of the id file. *)
Definition read_user_ids (lines : list string) : list string :=
  PyStr.strip <$> filter (fun line => PyStr.strip line ≠ "") lines.

(** Lines 231-253: the body of the loop of [main] for the [i]-th id of
    [total], on the users collected so far, the number of calls of
    [time.sleep] and the world.  The calls of [time.sleep] are counted; a
    delay that [time.sleep] refuses is not part of the model. *)
Definition process_user `{World} (session : session) (avatars_dir : string) (total i : nat)
    (user_id : string) (st : list saved_user * nat * (net_state * fs_state))
  : result (list saved_user * nat * (net_state * fs_state)) :=
  let '(all_users, sleeps, (net, fs)) := st in
  let '(fetched, net) := fetch_user_profile session user_id net in
  user_data ← fetched;
  let '(all_users, w) :=
    match user_data with
    | Some user_data =>
        match avatar_url user_data with
        | Some url =>
            let '(avatar_filename, w) :=
              download_avatar session user_id url avatars_dir (net, fs) in
            let avatar_filename :=
              match avatar_filename with
              | Some "" | None => None
              | Some filename => Some filename
              end in
            (all_users ++ [SavedUser user_data avatar_filename], w)
        | None => (all_users ++ [SavedUser user_data None], (net, fs))
        end
    | None => (all_users, (net, fs))
    end in
  mret (all_users, if i <? total then S sleeps else sleeps, w).

(** Lines 230-255: the loop over [enumerate(user_ids, 1)], from index [i]. *)
Fixpoint main_loop_from `{World} (session : session) (avatars_dir : string) (total i : nat)
    (user_ids : list string) (st : list saved_user * nat * (net_state * fs_state))
  : result (list saved_user * nat * (net_state * fs_state)) :=
  match user_ids with
  | [] => mret st
  | user_id :: user_ids' =>
      st ← process_user session avatars_dir total i user_id st;
      main_loop_from session avatars_dir total (S i) user_ids' st
  end.

(** Lines 228-255. *)
Definition main_loop `{World} (session : session) (avatars_dir : string)
    (user_ids : list string) (w : net_state * fs_state)
  : result (list saved_user * nat * (net_state * fs_state)) :=
  main_loop_from session avatars_dir (length user_ids) 1 user_ids ([], 0, w).

(** *** The script with library calls that may raise *)

(** The functions below follow the same lines as the ones above, with an
    [outcome] where a call of the parser, of [urljoin] or of [time.sleep]
    may raise.  The messages that the script prints are not modelled. *)

(** Lines 105-108, with the [ValueError] of [urljoin]. *)
Definition normalize_avatar_url_call `{Library} (avatar_url : string) : outcome string :=
  if PyStr.startswith "//" avatar_url then mret ("https:" +:+ avatar_url)
  else if PyStr.startswith "/" avatar_url then
    match urljoin_call JIRA_SERVER avatar_url with
    | Some joined => mret joined
    | None => Thrown ValueError
    end
  else mret avatar_url.

(** Lines 103-109. *)
Definition extract_avatar_call `{Library} (soup : node) (user_data : user_record)
  : outcome user_record :=
  match avatar_img soup with
  | Some img =>
      if truthy (get "src" img)
      then avatar_url ← of_result (getitem "src" img);
           avatar_url ← normalize_avatar_url_call avatar_url;
           mret (set_avatar_url avatar_url user_data)
      else mret user_data
  | None => mret user_data
  end.

(** Lines 74-170.  Nothing in the function catches an exception. *)
Definition parse_user_profile_call `{Library} (html_content user_id profile_url : string)
  : outcome user_record :=
  soup ← match BeautifulSoup_call html_content with
         | Some soup => mret soup
         | None => Thrown ParserRejectedMarkup
         end;
  let user_data :=
    UserRecord user_id profile_url None None None None None ∅ ∅ in
  let user_data := extract_page_title soup user_data in
  let user_data := extract_full_name soup user_data in
  user_data ← extract_avatar_call soup user_data;
  user_data ← of_result (extract_email soup user_data);
  let user_data := extract_username soup user_data in
  let user_data := definition_lists soup user_data in
  let user_data := tables soup user_data in
  let user_data := sub_panels soup user_data in
  mret user_data.

(** Lines 52-71.  Line 69 catches a [RequestException] only: what
    [parse_user_profile] raises leaves the function. *)
Definition fetch_user_profile_call `{World} `{Library} (session : session)
    (user_id : string) (net : net_state) : outcome (option user_record) * net_state :=
  let url := profile_request_url user_id in
  match session_get session url net with
  | (Some response, net) =>
      if http_error response then (Returned None, net)
      else if PyStr.contains "login" (PyStr.lower (response_url response))
              || PyStr.contains "Log in to Jira" (response_text response)
      then (Returned None, net)
      else (user_data ← parse_user_profile_call (response_text response) user_id url;
            mret (Some user_data), net)
  | (None, net) => (Returned None, net)
  end.

(** Lines 231-253: the body of the loop of [main], which catches nothing. *)
Definition process_user_call `{World} `{Library} (session : session)
    (avatars_dir : string) (total i : nat) (user_id : string)
    (st : list saved_user * nat * (net_state * fs_state))
  : outcome (list saved_user * nat * (net_state * fs_state)) :=
  let '(all_users, sleeps, (net, fs)) := st in
  let '(fetched, net) := fetch_user_profile_call session user_id net in
  user_data ← fetched;
  let '(all_users, w) :=
    match user_data with
    | Some user_data =>
        match avatar_url user_data with
        | Some url =>
            let '(avatar_filename, w) :=
              download_avatar session user_id url avatars_dir (net, fs) in
            let avatar_filename :=
              match avatar_filename with
              | Some "" | None => None
              | Some filename => Some filename
              end in
            (all_users ++ [SavedUser user_data avatar_filename], w)
        | None => (all_users ++ [SavedUser user_data None], (net, fs))
        end
    | None => (all_users, (net, fs))
    end in
  if i <? total then time_sleep_call;; mret (all_users, S sleeps, w)
  else mret (all_users, sleeps, w).

(** Lines 230-255, from index [i]: the loop ends with the first exception. *)
Fixpoint main_loop_from_call `{World} `{Library} (session : session)
    (avatars_dir : string) (total i : nat) (user_ids : list string)
    (st : list saved_user * nat * (net_state * fs_state))
  : outcome (list saved_user * nat * (net_state * fs_state)) :=
  match user_ids with
  | [] => mret st
  | user_id :: user_ids' =>
      st ← process_user_call session avatars_dir total i user_id st;
      main_loop_from_call session avatars_dir total (S i) user_ids' st
  end.

(** Lines 228-255. *)
Definition main_loop_call `{World} `{Library} (session : session) (avatars_dir : string)
    (user_ids : list string) (w : net_state * fs_state)
  : outcome (list saved_user * nat * (net_state * fs_state)) :=
  main_loop_from_call session avatars_dir (length user_ids) 1 user_ids ([], 0, w).

(** [urljoin] and [BeautifulSoup] return what the calls of the library
    return, on the runs on which these return. *)
Definition returns_of `{Library} : Prop :=
  (∀ html_content soup,
     BeautifulSoup_call html_content = Some soup → BeautifulSoup html_content = soup) ∧
  (∀ base url joined, urljoin_call base url = Some joined → urljoin base url = joined).

(** The headings of any level. *)
Definition heading_names : list string := ["h1"; "h2"; "h3"; "h4"; "h5"; "h6"].

(** *** Searching the tree *)

Lemma find_all_none (p : node → bool) (n : node) :
  (∀ d, d ∈ descendants n → p d = false) → find_all p n = [].
Proof.
  intros Hp. unfold find_all.
  induction (descendants n) as [|d l IH]; [done|].
  rewrite filter_cons. destruct (decide (p d = true)) as [Hd|_].
  - rewrite Hp in Hd; [done|left].
  - apply IH. intros d' Hd'. apply Hp. by right.
Qed.

Lemma find_none (p : node → bool) (n : node) :
  find_all p n = [] → find p n = None.
Proof. unfold find. by intros ->. Qed.

Lemma find_some (p : node → bool) (n x : node) :
  find p n = Some x → p x = true ∧ x ∈ descendants n.
Proof.
  unfold find. intros Hx. apply head_Some_elem_of in Hx.
  by apply list_elem_of_filter in Hx.
Qed.

Lemma find_all_and (p q : node → bool) (n : node) :
  find_all (fun d => p d && q d) n = filter (fun d => q d = true) (find_all p n).
Proof.
  unfold find_all. rewrite list_filter_filter. apply list_filter_iff.
  intros d. rewrite andb_true_iff. tauto.
Qed.

(** *** The passes on the scalar entries, [details] and [sections] *)

Lemma store_pair_scalars st kv : scalars (store_pair st kv).2 = scalars st.2.
Proof.
  destruct st as [m u], kv as [k v]. unfold store_pair.
  by case_bool_decide.
Qed.

Lemma store_pair_sections st kv : sections (store_pair st kv).2 = sections st.2.
Proof.
  destruct st as [m u], kv as [k v]. unfold store_pair.
  by case_bool_decide.
Qed.

Lemma foldl_store_pair_scalars pairs st :
  scalars (foldl store_pair st pairs).2 = scalars st.2.
Proof.
  revert st. induction pairs as [|kv pairs IH]; intros st; [done|].
  simpl. rewrite IH. apply store_pair_scalars.
Qed.

Lemma foldl_store_pair_sections pairs st :
  sections (foldl store_pair st pairs).2 = sections st.2.
Proof.
  revert st. induction pairs as [|kv pairs IH]; intros st; [done|].
  simpl. rewrite IH. apply store_pair_sections.
Qed.

Lemma store_pairs_scalars u pairs : scalars (store_pairs u pairs) = scalars u.
Proof.
  unfold store_pairs.
  pose proof (foldl_store_pair_scalars pairs (∅, u)) as H.
  destruct (foldl store_pair (∅, u) pairs) as [m u']. simpl in H.
  by case_bool_decide.
Qed.

Lemma definition_lists_scalars soup u : scalars (definition_lists soup u) = scalars u.
Proof.
  unfold definition_lists. revert u.
  induction (find_all (named ["dl"]) soup) as [|dl dls IH]; intros u; [done|].
  simpl. rewrite IH. apply store_pairs_scalars.
Qed.

Lemma tables_from_scalars i tbls u : scalars (tables_from i tbls u) = scalars u.
Proof.
  revert i u. induction tbls as [|t tbls IH]; intros i u; [done|].
  simpl. rewrite IH. by destruct (table_rows t).
Qed.

Lemma tables_from_details i tbls u : details (tables_from i tbls u) = details u.
Proof.
  revert i u. induction tbls as [|t tbls IH]; intros i u; [done|].
  simpl. rewrite IH. by destruct (table_rows t).
Qed.

Lemma foldl_sub_panel_scalars subs u : scalars (foldl sub_panel u subs) = scalars u.
Proof.
  revert u. induction subs as [|s subs IH]; intros u; [done|].
  simpl. rewrite IH. unfold sub_panel. by case_match.
Qed.

Lemma foldl_sub_panel_details subs u : details (foldl sub_panel u subs) = details u.
Proof.
  revert u. induction subs as [|s subs IH]; intros u; [done|].
  simpl. rewrite IH. unfold sub_panel. by case_match.
Qed.

Lemma sub_panels_scalars soup u : scalars (sub_panels soup u) = scalars u.
Proof. unfold sub_panels. case_match; [apply foldl_sub_panel_scalars|done]. Qed.

Lemma sub_panels_details soup u : details (sub_panels soup u) = details u.
Proof. unfold sub_panels. case_match; [apply foldl_sub_panel_details|done]. Qed.

(** The two subscript reads are guarded: neither step raises. *)
Lemma extract_avatar_ok soup u :
  extract_avatar soup u =
    Ok match avatar_img soup with
       | Some img =>
           match get "src" img with
           | Some src => if String.eqb src "" then u
                         else set_avatar_url (normalize_avatar_url src) u
           | None => u
           end
       | None => u
       end.
Proof.
  unfold extract_avatar, getitem.
  destruct (avatar_img soup) as [img|]; [|done].
  destruct (get "src" img) as [[|c src]|]; done.
Qed.

Lemma extract_email_ok soup u :
  extract_email soup u =
    Ok match find (fun n => named ["a"] n &&
                            attr_test "href" (PyStr.startswith "mailto:") n) soup with
       | Some mailto_link =>
           match get "href" mailto_link with
           | Some href => set_email (PyStr.replace "mailto:" "" href) u
           | None => u
           end
       | None => u
       end.
Proof.
  unfold extract_email, getitem.
  destruct (find _ soup) as [link|] eqn:Hfind; [|done].
  apply find_some in Hfind as [Hp _].
  apply andb_true_iff in Hp as [_ Hp]. unfold attr_test in Hp.
  by destruct (get "href" link).
Qed.

(** The returned record: the scalar steps never fail, and the three
    section passes run on their result. *)
Lemma parse_user_profile_stages html_content user_id url :
  let soup := BeautifulSoup html_content in
  ∃ us,
    details us = ∅ ∧ sections us = ∅ ∧
    parse_user_profile html_content user_id url
    = Ok (sub_panels soup (tables soup (definition_lists soup us))) ∧
    scalars (sub_panels soup (tables soup (definition_lists soup us))) = scalars us ∧
    id_ us = user_id ∧ profile_url us = url ∧
    full_name us = (fun h => PyStr.strip (text h)) <$> profile_heading soup ∧
    avatar_url us =
      (img ← avatar_img soup; src ← get "src" img;
       if String.eqb src "" then None else Some (normalize_avatar_url src)) ∧
    email us =
      (mailto_link ← find (fun n => named ["a"] n &&
                             attr_test "href" (PyStr.startswith "mailto:") n) soup;
       PyStr.replace "mailto:" "" <$> get "href" mailto_link).
Proof.
  intros soup. unfold parse_user_profile. fold soup.
  rewrite extract_avatar_ok. simpl. rewrite extract_email_ok. simpl.
  eexists. split_and!; [| |reflexivity| | | | | |].
  - unfold extract_username, extract_full_name, extract_page_title.
    by repeat case_match.
  - unfold extract_username, extract_full_name, extract_page_title.
    by repeat case_match.
  - unfold tables. by rewrite sub_panels_scalars, tables_from_scalars,
      definition_lists_scalars.
  - unfold extract_username, extract_full_name, extract_page_title.
    by repeat case_match.
  - unfold extract_username, extract_full_name, extract_page_title.
    by repeat case_match.
  - unfold extract_username, extract_full_name, extract_page_title.
    destruct (profile_heading soup); simpl; by repeat case_match.
  - unfold extract_username, extract_full_name, extract_page_title.
    destruct (avatar_img soup) as [img|]; simpl;
      [destruct (get "src" img) as [src|]; simpl;
       [destruct (String.eqb src "")|]|];
      by repeat case_match.
  - unfold extract_username, extract_full_name, extract_page_title.
    destruct (find (fun n => named ["a"] n && _) soup) as [link|]; simpl;
      [destruct (get "href" link) as [href|]; simpl|];
      by repeat case_match.
Qed.

(** The extraction returns a record for every document. *)
Lemma parse_user_profile_total html_content user_id url :
  ∃ u, parse_user_profile html_content user_id url = Ok u ∧
       id_ u = user_id ∧ profile_url u = url.
Proof.
  destruct (parse_user_profile_stages html_content user_id url)
    as (us & _ & _ & Hparse & Hsc & Hid & Hurl & _).
  eexists. split; [exact Hparse|].
  unfold scalars in Hsc. by simplify_eq.
Qed.

(** *** Documents without markers *)

(** C1: when no node of the document is a recognized marker (no title,
    no heading, no user-logo or Avatar image, no mailto link, no
    user-hover element, no definition list, no table, no profile
    container), [parse_user_profile] does not raise and returns the
    record that holds the caller's id and the profile URL, no optional
    entry, and empty [details] and [sections]. *)
Theorem parse_user_profile_no_markers html_content user_id url :
  (∀ d, d ∈ descendants (BeautifulSoup html_content) → recognized_marker d = false) →
  parse_user_profile html_content user_id url
  = Ok (UserRecord user_id url None None None None None ∅ ∅).
Proof.
  intros Hno. set (soup := BeautifulSoup html_content) in *.
  assert (Hfind : ∀ p, (∀ d, recognized_marker d = false → p d = false) →
                       find p soup = None ∧ find_all p soup = []).
  { intros p Hp. assert (find_all p soup = []) as Hnil.
    { apply find_all_none. intros d Hd. by apply Hp, Hno. }
    split; [by apply find_none|done]. }
  unfold recognized_marker in Hfind.
  unfold parse_user_profile. fold soup.
  unfold extract_page_title.
  destruct (Hfind (named ["title"])) as [-> _].
  { intros d Hd. by repeat (apply orb_false_iff in Hd as [Hd ?]). }
  unfold extract_full_name, profile_heading.
  destruct (Hfind (fun n => named ["h1"] n && has_class "page-title" n)) as [-> _].
  { intros d Hd. repeat (apply orb_false_iff in Hd as [Hd ?]).
    apply andb_false_iff. by left. }
  destruct (Hfind (named ["h1"])) as [-> _].
  { intros d Hd. by repeat (apply orb_false_iff in Hd as [Hd ?]). }
  unfold extract_avatar, avatar_img.
  destruct (Hfind (fun n => named ["img"] n && has_class "userLogo" n)) as [-> _].
  { intros d Hd. by repeat (apply orb_false_iff in Hd as [Hd ?]). }
  destruct (Hfind (fun n => named ["img"] n &&
      attr_test "alt" (fun x => negb (String.eqb x "") && PyStr.contains "Avatar" x) n))
    as [-> _].
  { intros d Hd. by repeat (apply orb_false_iff in Hd as [Hd ?]). }
  simpl. unfold extract_email.
  destruct (Hfind (fun n => named ["a"] n &&
                            attr_test "href" (PyStr.startswith "mailto:") n)) as [-> _].
  { intros d Hd. by repeat (apply orb_false_iff in Hd as [Hd ?]). }
  simpl. unfold extract_username.
  destruct (Hfind (fun n => named ["span"] n && has_class "user-hover" n)) as [-> _].
  { intros d Hd. by repeat (apply orb_false_iff in Hd as [Hd ?]). }
  unfold definition_lists.
  destruct (Hfind (named ["dl"])) as [_ ->].
  { intros d Hd. by repeat (apply orb_false_iff in Hd as [Hd ?]). }
  unfold tables.
  destruct (Hfind (named ["table"])) as [_ ->].
  { intros d Hd. by repeat (apply orb_false_iff in Hd as [Hd ?]). }
  unfold sub_panels, user_profile_div.
  destruct (Hfind (fun n => named ["div"] n && attr_is "id" "user-profile-panel" n))
    as [-> _].
  { intros d Hd. by repeat (apply orb_false_iff in Hd as [Hd ?]). }
  destruct (Hfind (fun n => named ["div"] n && has_class "profile-panel" n)) as [-> _].
  { intros d Hd. by repeat (apply orb_false_iff in Hd as [Hd ?]). }
  reflexivity.
Qed.

(** *** The scalar fields *)

(** C4: [full_name] is the trimmed text of the first [h1] that carries
    the [page-title] class; without such a heading it is the trimmed text
    of the first [h1]; it is absent exactly when the document has no
    [h1]. *)
Theorem full_name_heading html_content user_id url :
  let headings := find_all (named ["h1"]) (BeautifulSoup html_content) in
  ∃ u, parse_user_profile html_content user_id url = Ok u ∧
       full_name u =
         match filter (fun h => has_class "page-title" h = true) headings with
         | h :: _ => Some (PyStr.strip (text h))
         | [] => match headings with
                 | h :: _ => Some (PyStr.strip (text h))
                 | [] => None
                 end
         end ∧
       (full_name u = None ↔ headings = []).
Proof.
  intros headings.
  destruct (parse_user_profile_stages html_content user_id url)
    as (us & _ & _ & Hparse & Hsc & _ & _ & Hname & _).
  eexists. split; [exact Hparse|].
  assert (full_name (sub_panels (BeautifulSoup html_content)
            (tables (BeautifulSoup html_content)
               (definition_lists (BeautifulSoup html_content) us))) = full_name us) as ->.
  { unfold scalars in Hsc. by simplify_eq. }
  rewrite Hname. unfold profile_heading, find.
  rewrite find_all_and. fold headings.
  destruct (filter _ headings) as [|h hs] eqn:Hfilter; simpl.
  - destruct headings; simpl; split; [done|done|done|done].
  - split; [done|]. split; [done|]. intros ->. done.
Qed.

(** C10: when the first image with the [userLogo] class has no [src]
    attribute, [avatar_url] is absent, whatever other images the document
    holds: the Avatar image is looked for only when no user-logo image
    exists. *)
Theorem avatar_absent_when_user_logo_lacks_src html_content user_id url img :
  find (fun n => named ["img"] n && has_class "userLogo" n)
       (BeautifulSoup html_content) = Some img →
  get "src" img = None →
  ∃ u, parse_user_profile html_content user_id url = Ok u ∧ avatar_url u = None.
Proof.
  intros Hlogo Hsrc.
  destruct (parse_user_profile_stages html_content user_id url)
    as (us & _ & _ & Hparse & Hsc & _ & _ & _ & Havatar & _).
  eexists. split; [exact Hparse|].
  assert (avatar_url (sub_panels (BeautifulSoup html_content)
            (tables (BeautifulSoup html_content)
               (definition_lists (BeautifulSoup html_content) us))) = avatar_url us) as ->.
  { unfold scalars in Hsc. by simplify_eq. }
  rewrite Havatar. unfold avatar_img. rewrite Hlogo. simpl. by rewrite Hsrc.
Qed.

(** *** The email field *)

Lemma startswith_app (p s : string) : PyStr.startswith p (p +:+ s) = true.
Proof.
  induction p as [|a p IH]; [done|].
  change (String a p +:+ s) with (String a (p +:+ s)).
  cbn [PyStr.startswith]. by rewrite Ascii.eqb_refl, IH.
Qed.

Lemma replace_from_skip (old new s1 s2 : string) :
  PyStr.replace_from old new (String.length s1) (s1 +:+ s2)
  = PyStr.replace_from old new 0 s2.
Proof.
  induction s1 as [|a s1 IH]; [done|].
  change (String a s1 +:+ s2) with (String a (s1 +:+ s2)).
  cbn [String.length PyStr.replace_from]. apply IH.
Qed.

Lemma replace_prefix (old new rest : string) :
  old ≠ "" →
  PyStr.replace old new (old +:+ rest) = new +:+ PyStr.replace old new rest.
Proof.
  destruct old as [|a old]; [done|]. intros _. unfold PyStr.replace.
  change (String a old +:+ rest) with (String a (old +:+ rest)).
  cbn [PyStr.replace_from].
  change (String a (old +:+ rest)) with (String a old +:+ rest).
  rewrite startswith_app. cbn [String.length]. rewrite Nat.sub_1_r. simpl Nat.pred.
  by rewrite replace_from_skip.
Qed.

Lemma replace_absent (old new s : string) :
  old ≠ "" → PyStr.contains old s = false → PyStr.replace old new s = s.
Proof.
  destruct old as [|a old]; [done|]. intros _. unfold PyStr.replace.
  induction s as [|c s IH]; [done|].
  cbn [PyStr.contains PyStr.replace_from].
  intros [Hhere Hlater]%orb_false_iff. rewrite Hhere. by rewrite IH.
Qed.

(** What [email] holds: every "mailto:" is removed from the target of the
    first mailto link; the field is absent without such a link; and when
    the target holds "mailto:" at its start only, the field is the rest of
    the target. *)
Lemma email_of_first_mailto_link html_content user_id url :
  let mailto_links :=
    find_all (fun n => named ["a"] n &&
                       attr_test "href" (PyStr.startswith "mailto:") n)
             (BeautifulSoup html_content) in
  ∃ u, parse_user_profile html_content user_id url = Ok u ∧
       email u = match mailto_links with
                 | [] => None
                 | mailto_link :: _ =>
                     PyStr.replace "mailto:" "" <$> get "href" mailto_link
                 end.
Proof.
  intros mailto_links.
  destruct (parse_user_profile_stages html_content user_id url)
    as (us & _ & _ & Hparse & Hsc & _ & _ & _ & _ & Hemail).
  eexists. split; [exact Hparse|].
  assert (email (sub_panels (BeautifulSoup html_content)
            (tables (BeautifulSoup html_content)
               (definition_lists (BeautifulSoup html_content) us))) = email us) as ->.
  { unfold scalars in Hsc. by simplify_eq. }
  rewrite Hemail. unfold find. fold mailto_links. by destruct mailto_links.
Qed.

Lemma email_of_plain_mailto_link html_content user_id url mailto_link rest :
  find (fun n => named ["a"] n && attr_test "href" (PyStr.startswith "mailto:") n)
       (BeautifulSoup html_content) = Some mailto_link →
  get "href" mailto_link = Some ("mailto:" +:+ rest) →
  PyStr.contains "mailto:" rest = false →
  ∃ u, parse_user_profile html_content user_id url = Ok u ∧ email u = Some rest.
Proof.
  intros Hfind Hhref Hrest.
  destruct (email_of_first_mailto_link html_content user_id url)
    as (u & Hparse & Hemail).
  exists u. split; [done|]. rewrite Hemail. unfold find in Hfind.
  destruct (find_all _ _) as [|link links]; [done|]. simpl in Hfind.
  simplify_eq. rewrite Hhref. cbn [fmap option_fmap option_map].
  by rewrite replace_prefix, replace_absent.
Qed.

(** *** The avatar reference *)

Lemma startswith_double_slash (s : string) :
  PyStr.startswith "/" s = false → PyStr.startswith "//" s = false.
Proof.
  destruct s as [|c s]; [done|]. cbn [PyStr.startswith].
  destruct (Ascii.eqb "/" c); [by destruct s|done].
Qed.

(** The three cases of lines 105-108 when [urljoin] may raise: only the
    second case calls it, and the normalization raises exactly when it
    does. *)
Lemma normalize_avatar_url_call_cases `{Library} (ref : string) :
  (PyStr.startswith "//" ref = true →
   normalize_avatar_url_call ref = Returned ("https:" +:+ ref)) ∧
  (PyStr.startswith "//" ref = false → PyStr.startswith "/" ref = true →
   normalize_avatar_url_call ref
   = match urljoin_call JIRA_SERVER ref with
     | Some joined => Returned joined
     | None => Thrown ValueError
     end) ∧
  (PyStr.startswith "/" ref = false →
   normalize_avatar_url_call ref = Returned ref).
Proof.
  unfold normalize_avatar_url_call. split_and!.
  - by intros ->.
  - by intros -> ->.
  - intros Hslash. by rewrite (startswith_double_slash _ Hslash), Hslash.
Qed.

(** *** The definition-block pass *)

Lemma pair_up_length dts dds :
  length (pair_up dts dds) = length dts `min` length dds.
Proof. unfold pair_up. by rewrite length_fmap, length_zip_with. Qed.

Lemma pair_up_lookup dts dds i dt dd :
  dts !! i = Some dt → dds !! i = Some dd →
  pair_up dts dds !! i
  = Some (PyStr.rstrip ":" (PyStr.strip (text dt)), PyStr.strip (text dd)).
Proof.
  intros Hdt Hdd. unfold pair_up.
  by rewrite list_lookup_fmap, lookup_zip_with, Hdt, Hdd.
Qed.

Lemma pair_up_take dts dds :
  let n := length dts `min` length dds in
  pair_up dts dds = pair_up (take n dts) (take n dds).
Proof.
  intros n. unfold pair_up.
  rewrite zip_with_take_l', zip_with_take_r'; [done|lia|].
  rewrite length_take. lia.
Qed.

(** The loop state after the pairs of one list: [section_data] holds the
    pairs, and [sections] is still untouched. *)
Lemma foldl_store_pair_section_data pairs m u :
  (foldl store_pair (m, u) pairs).1 = foldl (fun m kv => <[kv.1:=kv.2]> m) m pairs.
Proof.
  revert m u. induction pairs as [|[k v] pairs IH]; intros m u; [done|].
  simpl. case_bool_decide; apply IH.
Qed.

Lemma section_data_of_snoc pairs k v :
  section_data_of (pairs ++ [(k, v)]) = <[k:=v]> (section_data_of pairs).
Proof. unfold section_data_of. by rewrite foldl_app. Qed.

Lemma section_data_of_empty pairs : section_data_of pairs = ∅ ↔ pairs = [].
Proof.
  split; [|by intros ->].
  destruct pairs as [|kv pairs _] using rev_ind; [done|].
  destruct kv as [k v]. rewrite section_data_of_snoc.
  intros Hins. by apply insert_non_empty in Hins.
Qed.

Lemma store_pairs_sections u pairs :
  sections (store_pairs u pairs)
  = match pairs with
    | [] => sections u
    | _ => <["profile_details":=KeyValues (section_data_of pairs)]> (sections u)
    end.
Proof.
  unfold store_pairs.
  pose proof (foldl_store_pair_section_data pairs ∅ u) as Hm.
  pose proof (foldl_store_pair_sections pairs (∅, u)) as Hs.
  destruct (foldl store_pair (∅, u) pairs) as [m u']. simpl in Hm, Hs.
  fold (section_data_of pairs) in Hm. subst m.
  case_bool_decide as Hempty.
  - apply section_data_of_empty in Hempty as ->. done.
  - destruct pairs; [done|]. simpl. by rewrite Hs.
Qed.

Lemma foldl_definition_list_empty dls u :
  Forall (fun d => section_data_of (dl_pairs d) = ∅) dls →
  foldl definition_list u dls = u.
Proof.
  revert u. induction dls as [|d dls IH]; intros u Hall; [done|].
  apply Forall_cons in Hall as [Hd Hall]. simpl. rewrite IH; [|done].
  unfold definition_list. apply section_data_of_empty in Hd as ->. done.
Qed.

Lemma foldl_definition_list_other dls u k :
  k ≠ "profile_details" →
  sections (foldl definition_list u dls) !! k = sections u !! k.
Proof.
  intros Hk. revert u. induction dls as [|d dls IH]; intros u; [done|].
  simpl. rewrite IH. unfold definition_list. rewrite store_pairs_sections.
  destruct (dl_pairs d); [done|]. by rewrite lookup_insert_ne.
Qed.

(** The section passes after the definition-block pass keep an entry
    whose key neither a table nor a sub-panel uses. *)
Lemma table_key_inj i j : table_key i = table_key j → i = j.
Proof.
  unfold table_key. intros H%(inj (String.app _)). by apply (inj pretty) in H.
Qed.

Lemma table_key_profile_details i : table_key i ≠ "profile_details".
Proof. unfold table_key, String.app. simpl. discriminate. Qed.

Lemma tables_from_other i tbls u k :
  (∀ j, i ≤ j → k ≠ table_key j) →
  sections (tables_from i tbls u) !! k = sections u !! k.
Proof.
  revert i u. induction tbls as [|t tbls IH]; intros i u Hk; [done|].
  simpl. rewrite IH; [|intros j Hj; apply Hk; lia].
  destruct (table_rows t); [done|]. simpl.
  rewrite lookup_insert_ne; [done|]. intros Heq. by apply (Hk i).
Qed.

Lemma sub_panels_other soup u k :
  k ∉ sub_panel_labels soup →
  sections (sub_panels soup u) !! k = sections u !! k.
Proof.
  unfold sub_panels, sub_panel_labels.
  destruct (user_profile_div soup) as [d|]; [|done].
  revert u. induction (find_all _ d) as [|s subs IH]; intros u Hk; [done|].
  simpl in *. unfold sub_panel at 2.
  destruct (negb _ && negb _) eqn:Hcond.
  - apply not_elem_of_cons in Hk as [Hne Hk]. rewrite IH; [|done].
    simpl. by rewrite lookup_insert_ne.
  - by rewrite IH.
Qed.

(** C7: in a definition list with different numbers of [dt] and [dd]
    elements, the pairs are taken by position and there are as many as
    the shorter of the two sequences has elements; the elements beyond
    that length change neither the pairs nor the record the list leaves
    behind, and the extraction of a document that holds the list returns
    a record. *)
Theorem pairing_stops_at_shorter (dl : node) :
  let dt_elements := find_all (named ["dt"]) dl in
  let dd_elements := find_all (named ["dd"]) dl in
  let n := length dt_elements `min` length dd_elements in
  length dt_elements ≠ length dd_elements →
  length (dl_pairs dl) = n ∧
  (∀ i dt dd,
     dt_elements !! i = Some dt → dd_elements !! i = Some dd →
     dl_pairs dl !! i
     = Some (PyStr.rstrip ":" (PyStr.strip (text dt)), PyStr.strip (text dd))) ∧
  dl_pairs dl = pair_up (take n dt_elements) (take n dd_elements) ∧
  (∀ u, definition_list u dl
        = store_pairs u (pair_up (take n dt_elements) (take n dd_elements))) ∧
  (∀ html_content user_id url,
     dl ∈ find_all (named ["dl"]) (BeautifulSoup html_content) →
     ∃ u, parse_user_profile html_content user_id url = Ok u).
Proof.
  intros dts dds n _. split_and!.
  - apply pair_up_length.
  - intros i dt dd. apply pair_up_lookup.
  - apply pair_up_take.
  - intros u. unfold definition_list, dl_pairs. fold dts dds.
    by rewrite (pair_up_take dts dds).
  - intros html_content user_id url _.
    destruct (parse_user_profile_stages html_content user_id url)
      as (us & _ & _ & Hparse & _). eauto.
Qed.

(** C9: when a definition list with a non-empty mapping is followed only
    by definition lists with an empty mapping, the entry
    [profile_details] that the definition-block pass leaves is the
    mapping of that list: the later lists do not overwrite it.  The same
    entry is in the returned record unless a sub-panel is labelled
    [profile_details]. *)
Theorem profile_details_last_non_empty html_content user_id url before dl after :
  let soup := BeautifulSoup html_content in
  find_all (named ["dl"]) soup = before ++ dl :: after →
  section_data_of (dl_pairs dl) ≠ ∅ →
  Forall (fun d => section_data_of (dl_pairs d) = ∅) after →
  (∀ u0, sections (definition_lists soup u0) !! "profile_details"
         = Some (KeyValues (section_data_of (dl_pairs dl)))) ∧
  ∃ u, parse_user_profile html_content user_id url = Ok u ∧
       ("profile_details" ∉ sub_panel_labels soup →
        sections u !! "profile_details"
        = Some (KeyValues (section_data_of (dl_pairs dl)))).
Proof.
  intros soup Hdls Hdl Hafter.
  assert (Hpass : ∀ u0, sections (definition_lists soup u0) !! "profile_details"
                        = Some (KeyValues (section_data_of (dl_pairs dl)))).
  { intros u0. unfold definition_lists. rewrite Hdls, foldl_app. simpl.
    rewrite foldl_definition_list_empty; [|done].
    unfold definition_list. rewrite store_pairs_sections.
    destruct (dl_pairs dl) eqn:Hpairs; [done|].
    by rewrite lookup_insert_eq. }
  split; [done|].
  destruct (parse_user_profile_stages html_content user_id url)
    as (us & _ & _ & Hparse & _).
  eexists. split; [exact Hparse|]. fold soup. intros Hlabel.
  rewrite sub_panels_other; [|done].
  unfold tables. rewrite tables_from_other; [done|].
  intros j _ Heq. by apply (table_key_profile_details j).
Qed.

(** *** The table pass *)

Lemma table_rows_filter (table : node) :
  table_rows table
  = filter (fun row_data => row_data ≠ []) (row_cells <$> find_all (named ["tr"]) table).
Proof.
  unfold table_rows.
  enough (∀ rows acc,
    foldl (fun table_data row =>
             match find_all (named ["td"; "th"]) row with
             | [] => table_data
             | cells => table_data ++ [(fun cell => PyStr.strip (text cell)) <$> cells]
             end) acc rows
    = acc ++ filter (fun row_data => row_data ≠ []) (row_cells <$> rows)) as Hgen.
  { by rewrite Hgen. }
  induction rows as [|row rows IH]; intros acc; simpl.
  - by rewrite app_nil_r.
  - rewrite IH, filter_cons.
    destruct (find_all (named ["td"; "th"]) row) as [|cell cells] eqn:Hcells.
    + assert (row_cells row = []) as Hrow by (unfold row_cells; by rewrite Hcells).
      by destruct (decide (row_cells row ≠ [])).
    + assert (row_cells row = (fun c => PyStr.strip (text c)) <$> cell :: cells) as Hrow
        by (unfold row_cells; by rewrite Hcells).
      destruct (decide (row_cells row ≠ [])) as [_|Hnil].
      * by rewrite Hrow, <-app_assoc.
      * exfalso. apply Hnil. by rewrite Hrow.
Qed.

Lemma tables_from_lookup tbls i u j table :
  tbls !! j = Some table →
  sections (tables_from i tbls u) !! table_key (i + j)
  = match table_rows table with
    | [] => sections u !! table_key (i + j)
    | table_data => Some (Rows table_data)
    end.
Proof.
  revert i u j. induction tbls as [|t tbls IH]; intros i u j Hj; [done|].
  destruct j as [|j]; simpl in *.
  - simplify_eq. rewrite Nat.add_0_r.
    rewrite tables_from_other;
      [|intros j Hj Heq; apply table_key_inj in Heq; lia].
    destruct (table_rows table); [done|]. simpl. by rewrite lookup_insert_eq.
  - replace (i + S j) with (S i + j) by lia.
    rewrite (IH (S i) _ j Hj).
    destruct (table_rows table); [|done].
    destruct (table_rows t); [done|]. simpl.
    rewrite lookup_insert_ne; [done|]. intros Heq%table_key_inj. lia.
Qed.

(** C6: a table at position [i] among the tables of the document, in
    document order, holds the rows that have at least one cell, rows
    without cells left out.  When it holds at least one row the table pass
    stores the rows under [table_<i>]; when it holds none the pass leaves
    that key alone.  In the returned record the key holds the rows, or is
    missing for a table without rows, unless a sub-panel is labelled
    [table_<i>]. *)
Theorem tables_keyed_by_position html_content user_id url i table :
  let soup := BeautifulSoup html_content in
  find_all (named ["table"]) soup !! i = Some table →
  table_rows table
  = filter (fun row_data => row_data ≠ []) (row_cells <$> find_all (named ["tr"]) table) ∧
  (∀ u0, sections (tables soup u0) !! table_key i
         = match table_rows table with
           | [] => sections u0 !! table_key i
           | table_data => Some (Rows table_data)
           end) ∧
  ∃ u, parse_user_profile html_content user_id url = Ok u ∧
       (table_key i ∉ sub_panel_labels soup →
        sections u !! table_key i
        = match table_rows table with
          | [] => None
          | table_data => Some (Rows table_data)
          end).
Proof.
  intros soup Hi. split; [apply table_rows_filter|].
  assert (Hpass : ∀ u0, sections (tables soup u0) !! table_key i
                        = match table_rows table with
                          | [] => sections u0 !! table_key i
                          | table_data => Some (Rows table_data)
                          end).
  { intros u0. unfold tables. apply (tables_from_lookup _ 0 u0 i table Hi). }
  split; [done|].
  destruct (parse_user_profile_stages html_content user_id url)
    as (us & _ & Hsections & Hparse & _).
  eexists. split; [exact Hparse|]. fold soup. intros Hlabel.
  rewrite sub_panels_other, Hpass; [|done].
  destruct (table_rows table); [|done].
  unfold definition_lists. rewrite foldl_definition_list_other, Hsections; [done|].
  apply table_key_profile_details.
Qed.

(** *** The [details] mapping *)

Lemma foldl_store_pair_details pairs m u :
  details (foldl store_pair (m, u) pairs).2 = file_details (details u) pairs.
Proof.
  revert m u. induction pairs as [|[k v] pairs IH]; intros m u; [done|].
  simpl. case_bool_decide as Hk; rewrite IH; unfold file_details; simpl;
    reflexivity.
Qed.

Lemma store_pairs_details u pairs :
  details (store_pairs u pairs) = file_details (details u) pairs.
Proof.
  unfold store_pairs.
  pose proof (foldl_store_pair_details pairs ∅ u) as Hd.
  destruct (foldl store_pair (∅, u) pairs) as [m u']. simpl in Hd.
  by case_bool_decide.
Qed.

Lemma file_details_app d pairs1 pairs2 :
  file_details d (pairs1 ++ pairs2) = file_details (file_details d pairs1) pairs2.
Proof. unfold file_details. by rewrite foldl_app. Qed.

Lemma definition_lists_details soup u :
  details (definition_lists soup u) = file_details (details u) (paired soup).
Proof.
  unfold definition_lists, paired. revert u.
  induction (find_all (named ["dl"]) soup) as [|dl dls IH]; intros u; [done|].
  simpl. rewrite IH. unfold definition_list.
  by rewrite store_pairs_details, file_details_app.
Qed.

Lemma normalized_key_recognized key :
  PyStr.lower key ∈ common_fields → normalized_key key ∈ recognized_keys.
Proof.
  unfold normalized_key. generalize (PyStr.lower key). intros x Hx.
  unfold common_fields in Hx.
  repeat (apply elem_of_cons in Hx as [->|Hx]); [..|by apply elem_of_nil in Hx];
    vm_compute; set_solver.
Qed.

Lemma normalized_key_common key1 key2 :
  PyStr.lower key1 ∈ common_fields → PyStr.lower key2 ∈ common_fields →
  normalized_key key1 = normalized_key key2 → PyStr.lower key1 = PyStr.lower key2.
Proof.
  unfold normalized_key. generalize (PyStr.lower key1) (PyStr.lower key2).
  intros x y Hx Hy. unfold common_fields in Hx, Hy.
  repeat (apply elem_of_cons in Hx as [->|Hx]); [..|by apply elem_of_nil in Hx];
    (repeat (apply elem_of_cons in Hy as [->|Hy]); [..|by apply elem_of_nil in Hy]);
    vm_compute; congruence.
Qed.

Lemma file_details_recognized d pairs :
  (∀ k, is_Some (d !! k) → k ∈ recognized_keys) →
  ∀ k, is_Some (file_details d pairs !! k) → k ∈ recognized_keys.
Proof.
  revert d. induction pairs as [|[key value] pairs IH]; intros d Hd; [done|].
  unfold file_details. simpl. case_bool_decide as Hkey; [|by apply IH].
  apply IH. intros k. rewrite lookup_insert. case_decide as Hk.
  - intros _. subst k. by apply normalized_key_recognized.
  - apply Hd.
Qed.

Lemma file_details_keep d pairs key :
  PyStr.lower key ∈ common_fields →
  Forall (fun kv => PyStr.lower kv.1 ≠ PyStr.lower key) pairs →
  file_details d pairs !! normalized_key key = d !! normalized_key key.
Proof.
  intros Hkey. revert d.
  induction pairs as [|[key' value'] pairs IH]; intros d Hall; [done|].
  apply Forall_cons in Hall as [Hne Hall].
  unfold file_details. simpl. case_bool_decide as Hkey'; [|by apply IH].
  fold (file_details (<[normalized_key key':=value']> d) pairs).
  rewrite IH; [|done]. rewrite lookup_insert_ne; [done|].
  intros Heq. apply Hne. by apply normalized_key_common.
Qed.

(** C3, as the code has it: a paired key whose lower-case form is one of
    [username], [full name], [email], [groups], [login count],
    [last login] is filed in [details] under that form with the spaces
    turned into underscores, with the value of the last pair whose key
    has the same lower-case form; and [details] holds no key outside
    [username], [full_name], [email], [groups], [login_count],
    [last_login]. *)
Theorem details_of_common_fields html_content user_id url :
  let soup := BeautifulSoup html_content in
  ∃ u, parse_user_profile html_content user_id url = Ok u ∧
       (∀ before key value after,
          paired soup = before ++ (key, value) :: after →
          PyStr.lower key ∈ common_fields →
          Forall (fun kv => PyStr.lower kv.1 ≠ PyStr.lower key) after →
          details u !! normalized_key key = Some value) ∧
       (∀ k, is_Some (details u !! k) → k ∈ recognized_keys).
Proof.
  intros soup.
  destruct (parse_user_profile_stages html_content user_id url)
    as (us & Hdetails & _ & Hparse & _).
  eexists. split; [exact Hparse|]. fold soup.
  rewrite sub_panels_details. unfold tables. rewrite tables_from_details.
  rewrite definition_lists_details, Hdetails. split.
  - intros before key value after -> Hkey Hafter.
    rewrite file_details_app. unfold file_details at 1. simpl.
    rewrite bool_decide_eq_true_2; [|done].
    fold (file_details (<[normalized_key key:=value]> (file_details ∅ before)) after).
    rewrite file_details_keep; [|done..]. by rewrite lookup_insert_eq.
  - apply file_details_recognized. intros k. rewrite lookup_empty.
    by intros [? ?].
Qed.

(** *** Facts on the string methods *)

Lemma lstrip_by_length (p : ascii → bool) (s : string) :
  String.length (PyStr.lstrip_by p s) ≤ String.length s.
Proof.
  induction s as [|c s IH]; [done|]. cbn [PyStr.lstrip_by].
  destruct (p c); cbn [String.length]; lia.
Qed.

Lemma rstrip_by_length (p : ascii → bool) (s : string) :
  String.length (PyStr.rstrip_by p s) ≤ String.length s.
Proof.
  induction s as [|c s IH]; [done|]. cbn [PyStr.rstrip_by].
  destruct (PyStr.rstrip_by p s) as [|d r]; [destruct (p c)|];
    cbn [String.length] in *; lia.
Qed.

Lemma rstrip_by_idemp (p : ascii → bool) (s : string) :
  PyStr.rstrip_by p (PyStr.rstrip_by p s) = PyStr.rstrip_by p s.
Proof.
  induction s as [|c s IH]; [done|]. cbn [PyStr.rstrip_by].
  destruct (PyStr.rstrip_by p s) as [|d r] eqn:Hr.
  - destruct (p c) eqn:Hc; [done|]. cbn [PyStr.rstrip_by]. by rewrite Hc.
  - change (PyStr.rstrip_by p (String c (String d r)))
      with (match PyStr.rstrip_by p (String d r) with
            | "" => if p c then "" else String c ""
            | r' => String c r'
            end).
    by rewrite IH.
Qed.

(** A string that is empty or starts with a character outside [p]. *)
Lemma lstrip_by_headed (p : ascii → bool) (s : string) :
  match PyStr.lstrip_by p s with
  | "" => True
  | String c _ => p c = false
  end.
Proof.
  induction s as [|c s IH]; [done|]. cbn [PyStr.lstrip_by].
  by destruct (p c) eqn:Hc.
Qed.

Lemma lstrip_by_fixed (p : ascii → bool) (s : string) :
  match s with "" => True | String c _ => p c = false end →
  PyStr.lstrip_by p s = s.
Proof. destruct s as [|c s]; [done|]. cbn [PyStr.lstrip_by]. by intros ->. Qed.

Lemma rstrip_by_headed (p : ascii → bool) (s : string) :
  match s with "" => True | String c _ => p c = false end →
  match PyStr.rstrip_by p s with "" => True | String c _ => p c = false end.
Proof.
  destruct s as [|c s]; [done|]. intros Hc. cbn [PyStr.rstrip_by].
  destruct (PyStr.rstrip_by p s); [by rewrite Hc|done].
Qed.

Lemma strip_idemp (s : string) : PyStr.strip (PyStr.strip s) = PyStr.strip s.
Proof.
  unfold PyStr.strip.
  rewrite (lstrip_by_fixed _ (PyStr.rstrip_by _ _)).
  - apply rstrip_by_idemp.
  - apply rstrip_by_headed, lstrip_by_headed.
Qed.

(** A string that [strip] leaves alone is left alone by both halves. *)
Lemma strip_fixed (s : string) :
  PyStr.strip s = s →
  PyStr.lstrip_by PyStr.isspace s = s ∧ PyStr.rstrip_by PyStr.isspace s = s.
Proof.
  unfold PyStr.strip. intros Hs.
  assert (PyStr.lstrip_by PyStr.isspace s = s) as Hl.
  { destruct s as [|c s]; [done|]. cbn [PyStr.lstrip_by] in *.
    destruct (PyStr.isspace c); [|done]. exfalso.
    pose proof (rstrip_by_length PyStr.isspace (PyStr.lstrip_by PyStr.isspace s)) as H1.
    pose proof (lstrip_by_length PyStr.isspace s) as H2.
    rewrite Hs in H1. cbn [String.length] in H1. lia. }
  split; [done|]. by rewrite Hl in Hs.
Qed.

Lemma lower_app (s t : string) :
  PyStr.lower (s +:+ t) = PyStr.lower s +:+ PyStr.lower t.
Proof.
  induction s as [|c s IH]; [done|].
  change (String c s +:+ t) with (String c (s +:+ t)).
  cbn [PyStr.lower]. by rewrite IH.
Qed.

Lemma startswith_app_l (p s t : string) :
  PyStr.startswith p s = true → PyStr.startswith p (s +:+ t) = true.
Proof.
  revert s. induction p as [|a p IH]; intros s; [done|].
  destruct s as [|b s]; [done|].
  change (String b s +:+ t) with (String b (s +:+ t)).
  cbn [PyStr.startswith]. intros [-> Hp]%andb_true_iff. by rewrite IH.
Qed.

Lemma contains_app_l (sub s t : string) :
  PyStr.contains sub s = true → PyStr.contains sub (s +:+ t) = true.
Proof.
  induction s as [|c s IH].
  - cbn [PyStr.contains]. rewrite orb_false_r. intros Hsub.
    destruct sub; [by destruct t|done].
  - change (String c s +:+ t) with (String c (s +:+ t)).
    cbn [PyStr.contains]. intros [Hhere|Hlater]%orb_true_iff.
    + apply (startswith_app_l _ _ t) in Hhere.
      change (String c s +:+ t) with (String c (s +:+ t)) in Hhere.
      by rewrite Hhere.
    + rewrite IH; [|done]. apply orb_true_r.
Qed.

Lemma contains_app_r (sub s t : string) :
  PyStr.contains sub t = true → PyStr.contains sub (s +:+ t) = true.
Proof.
  intros Ht. induction s as [|c s IH]; [done|].
  change (String c s +:+ t) with (String c (s +:+ t)).
  cbn [PyStr.contains]. rewrite IH. apply orb_true_r.
Qed.

(** *** More on the returned record *)

Lemma parse_user_profile_title_username html_content user_id url :
  let soup := BeautifulSoup html_content in
  ∃ u, parse_user_profile html_content user_id url = Ok u ∧
       page_title u = (fun t => PyStr.strip (text t)) <$> find (named ["title"]) soup ∧
       username u =
         (fun e => match get "data-username" e with
                   | Some v => if String.eqb v "" then PyStr.strip (text e) else v
                   | None => PyStr.strip (text e)
                   end)
           <$> find (fun n => named ["span"] n && has_class "user-hover" n) soup.
Proof.
  intros soup. unfold parse_user_profile. fold soup.
  rewrite extract_avatar_ok. simpl. rewrite extract_email_ok. simpl.
  eexists. split; [reflexivity|].
  match goal with
  | |- context [sub_panels soup (tables soup (definition_lists soup ?x))] =>
      set (us := x);
      assert (scalars (sub_panels soup (tables soup (definition_lists soup us)))
              = scalars us) as Hsc
        by (unfold tables;
            by rewrite sub_panels_scalars, tables_from_scalars, definition_lists_scalars)
  end.
  unfold scalars in Hsc.
  assert (page_title (sub_panels soup (tables soup (definition_lists soup us)))
          = page_title us) as -> by by simplify_eq.
  assert (username (sub_panels soup (tables soup (definition_lists soup us)))
          = username us) as -> by by simplify_eq.
  subst us. unfold extract_username, extract_full_name, extract_page_title.
  destruct (find (named ["title"]) soup); simpl;
    (destruct (find (fun n => named ["span"] n && has_class "user-hover" n) soup);
     simpl; by repeat case_match).
Qed.

(** X2: [page_title] is the trimmed text of the first [title] element of
    the document, and is absent exactly when the document has none. *)
Theorem page_title_of_first_title html_content user_id url :
  let titles := find_all (named ["title"]) (BeautifulSoup html_content) in
  ∃ u, parse_user_profile html_content user_id url = Ok u ∧
       page_title u = match titles with
                      | title :: _ => Some (PyStr.strip (text title))
                      | [] => None
                      end ∧
       (page_title u = None ↔ titles = []).
Proof.
  intros titles.
  destruct (parse_user_profile_title_username html_content user_id url)
    as (u & Hparse & Htitle & _).
  exists u. split; [done|]. rewrite Htitle. unfold find. fold titles.
  by destruct titles.
Qed.

(** X3: [username] comes from the first [span] with the [user-hover]
    class: its [data-username] attribute when that is present and not
    empty, else its trimmed text.  It is absent exactly when the document
    has no such element. *)
Theorem username_of_first_user_hover html_content user_id url :
  let hovers := find_all (fun n => named ["span"] n && has_class "user-hover" n)
                         (BeautifulSoup html_content) in
  ∃ u, parse_user_profile html_content user_id url = Ok u ∧
       username u = match hovers with
                    | username_elem :: _ =>
                        match get "data-username" username_elem with
                        | Some "" | None => Some (PyStr.strip (text username_elem))
                        | Some name => Some name
                        end
                    | [] => None
                    end ∧
       (username u = None ↔ hovers = []).
Proof.
  intros hovers.
  destruct (parse_user_profile_title_username html_content user_id url)
    as (u & Hparse & _ & Huser).
  exists u. split; [done|]. rewrite Huser. unfold find. fold hovers.
  destruct hovers as [|e hovers']; [done|]. simpl.
  destruct (get "data-username" e) as [[|c v]|]; done.
Qed.

(** X4: [avatar_url] comes from the first image with the [userLogo] class,
    or without such an image from the first image whose [alt] holds
    "Avatar".  It is the normalized [src] of that image, and is absent when
    that image has no [src] or an empty one. *)
Theorem avatar_url_of_first_image html_content user_id url :
  let soup := BeautifulSoup html_content in
  let logos := find_all (fun n => named ["img"] n && has_class "userLogo" n) soup in
  let avatars :=
    find_all (fun n => named ["img"] n &&
                       attr_test "alt" (fun x => negb (String.eqb x "") &&
                                                 PyStr.contains "Avatar" x) n) soup in
  ∃ u, parse_user_profile html_content user_id url = Ok u ∧
       avatar_url u =
         match (match logos with img :: _ => Some img | [] => head avatars end) with
         | Some img =>
             match get "src" img with
             | Some "" | None => None
             | Some src => Some (normalize_avatar_url src)
             end
         | None => None
         end.
Proof.
  intros soup logos avatars.
  destruct (parse_user_profile_stages html_content user_id url)
    as (us & _ & _ & Hparse & Hsc & _ & _ & _ & Havatar & _).
  eexists. split; [exact Hparse|]. fold soup.
  assert (avatar_url (sub_panels soup (tables soup (definition_lists soup us)))
          = avatar_url us) as ->.
  { unfold scalars in Hsc. by simplify_eq. }
  rewrite Havatar. unfold avatar_img, find. fold soup logos avatars.
  destruct logos as [|img logos']; simpl.
  - destruct (head avatars) as [img|]; [|done]. simpl.
    by destruct (get "src" img) as [[|c src]|].
  - by destruct (get "src" img) as [[|c src]|].
Qed.

(** *** The entries of [sections] *)

Lemma sub_panel_as_entry u subsection :
  sub_panel u subsection
  = match sub_panel_entry subsection with
    | Some (class_name, t) => set_section class_name (PlainText t) u
    | None => u
    end.
Proof. unfold sub_panel, sub_panel_entry. by case_match. Qed.

Lemma sub_panels_as_fold soup u :
  sub_panels soup u = foldl sub_panel u (subsections soup).
Proof. unfold sub_panels, subsections. by destruct (user_profile_div soup). Qed.

Lemma omap_fst {A B C} (f : A → option B) (g : A → option (B * C)) (l : list A) :
  (∀ x, f x = fst <$> g x) → omap f l = (omap g l).*1.
Proof.
  intros Hfg. induction l as [|x l IH]; [done|]. simpl. rewrite Hfg.
  destruct (g x) as [[b c]|]; simpl; [f_equal|]; apply IH.
Qed.

Lemma omap_cons_eq {A B} (f : A → option B) (x : A) (l : list A) :
  omap f (x :: l) = match f x with Some y => y :: omap f l | None => omap f l end.
Proof. done. Qed.

Lemma sub_panel_labels_entries soup :
  sub_panel_labels soup = (omap sub_panel_entry (subsections soup)).*1.
Proof.
  unfold sub_panel_labels, subsections.
  destruct (user_profile_div soup) as [d|]; [|done].
  apply omap_fst. intros s. unfold sub_panel_entry. by case_match.
Qed.

(** After the sub-panel loop a key holds the text of the last subsection
    stored under it, or what it held before without such a subsection. *)
Lemma foldl_sub_panel_lookup subs u k :
  sections (foldl sub_panel u subs) !! k
  = match last (filter (fun e => e.1 = k) (omap sub_panel_entry subs)) with
    | Some e => Some (PlainText e.2)
    | None => sections u !! k
    end.
Proof.
  revert u. induction subs as [|s subs IH] using rev_ind; intros u; [done|].
  rewrite foldl_app, omap_app, filter_app. simpl.
  rewrite sub_panel_as_entry.
  destruct (sub_panel_entry s) as [[class_name t]|]; simpl.
  - rewrite filter_cons, filter_nil. simpl.
    destruct (decide (class_name = k)) as [->|Hne].
    + rewrite last_snoc. simpl. by rewrite lookup_insert_eq.
    + rewrite app_nil_r, lookup_insert_ne; [|done]. apply IH.
  - rewrite filter_nil, app_nil_r. apply IH.
Qed.

Lemma tables_from_lookup_Some tbls i u k c :
  sections (tables_from i tbls u) !! k = Some c →
  (∃ j table, tbls !! j = Some table ∧ k = table_key (i + j) ∧
              table_rows table ≠ [] ∧ c = Rows (table_rows table))
  ∨ sections u !! k = Some c.
Proof.
  revert i u. induction tbls as [|t tbls IH]; intros i u Hk; [by right|].
  simpl in Hk. apply IH in Hk as [(j & table & Hj & -> & Hrows & ->)|Hk].
  - left. exists (S j), table. split_and!; [done|f_equal; lia|done|done].
  - destruct (table_rows t) as [|row rows] eqn:Ht; [by right|]. simpl in Hk.
    rewrite lookup_insert in Hk. case_decide as Heq; [|by right].
    left. exists 0, t. simplify_eq. rewrite Nat.add_0_r, Ht. by split_and!.
Qed.

Lemma foldl_definition_list_lookup_Some dls u k c :
  sections (foldl definition_list u dls) !! k = Some c →
  (k = "profile_details" ∧
   ∃ dl, dl ∈ dls ∧ dl_pairs dl ≠ [] ∧ c = KeyValues (section_data_of (dl_pairs dl)))
  ∨ sections u !! k = Some c.
Proof.
  revert u. induction dls as [|d dls IH]; intros u Hk; [by right|].
  simpl in Hk. apply IH in Hk as [(-> & dl & Hdl & Hne & ->)|Hk].
  - left. split; [done|]. exists dl. split_and!; [by right|done|done].
  - unfold definition_list in Hk. rewrite store_pairs_sections in Hk.
    destruct (dl_pairs d) as [|kv pairs] eqn:Hd; [by right|].
    rewrite lookup_insert in Hk. case_decide as Heq; [|by right].
    left. simplify_eq. split; [done|]. exists d. rewrite Hd.
    split_and!; [by left|done|done].
Qed.

(** X5: every entry of [sections] in the returned record is of one of three
    kinds: the text of a sub-panel under its label; or, under a key that is
    no sub-panel label, the non-empty mapping of a definition list under
    [profile_details] or the non-empty rows of the table at position [i]
    under [table_<i>].  No other key is written, and no empty mapping or
    empty table is stored. *)
Theorem sections_entries html_content user_id url :
  let soup := BeautifulSoup html_content in
  ∃ u, parse_user_profile html_content user_id url = Ok u ∧
       ∀ k c, sections u !! k = Some c →
         (k ∈ sub_panel_labels soup ∧ ∃ s, c = PlainText s)
         ∨ ((k ∉ sub_panel_labels soup) ∧
            ((k = "profile_details" ∧
              ∃ dl, dl ∈ find_all (named ["dl"]) soup ∧ dl_pairs dl ≠ [] ∧
                    c = KeyValues (section_data_of (dl_pairs dl)))
             ∨ (∃ i table, find_all (named ["table"]) soup !! i = Some table ∧
                           k = table_key i ∧ table_rows table ≠ [] ∧
                           c = Rows (table_rows table)))).
Proof.
  intros soup.
  destruct (parse_user_profile_stages html_content user_id url)
    as (us & _ & Hsections & Hparse & _).
  eexists. split; [exact Hparse|]. fold soup. intros k c.
  rewrite sub_panels_as_fold, foldl_sub_panel_lookup, sub_panel_labels_entries.
  destruct (last _) as [e|] eqn:Hlast.
  - intros [= <-]. left. split; [|by eexists].
    apply last_Some_elem_of, list_elem_of_filter in Hlast as [<- He].
    apply list_elem_of_fmap. by exists e.
  - intros Hk. right. split.
    + apply last_None in Hlast. intros ([k' t] & -> & He)%list_elem_of_fmap.
      eapply (filter_nil_not_elem_of _ _ (k', t)); [exact Hlast|done|done].
    + unfold tables in Hk.
      apply tables_from_lookup_Some in Hk as [(j & table & Hj & -> & Hrows & ->)|Hk].
      { right. exists j, table. by split_and!. }
      unfold definition_lists in Hk.
      apply foldl_definition_list_lookup_Some in Hk as [Hdl|Hk]; [by left|].
      by rewrite Hsections, lookup_empty in Hk.
Qed.

(** X6: a sub-panel label holds the trimmed text of the last subsection
    stored under it, also when the label is [profile_details] or a table
    key: the sub-panel pass runs last and overwrites. *)
Theorem sub_panel_overwrites html_content user_id url before subsection after k t :
  let soup := BeautifulSoup html_content in
  subsections soup = before ++ subsection :: after →
  sub_panel_entry subsection = Some (k, t) →
  Forall (fun s => ∀ t', sub_panel_entry s ≠ Some (k, t')) after →
  ∃ u, parse_user_profile html_content user_id url = Ok u ∧
       sections u !! k = Some (PlainText t) ∧
       t = PyStr.strip (text subsection) ∧ t ≠ "" ∧
       k = PyStr.join " " (default [] (get_class subsection)).
Proof.
  intros soup Hsubs Hentry Hafter.
  destruct (parse_user_profile_stages html_content user_id url)
    as (us & _ & _ & Hparse & _).
  eexists. split; [exact Hparse|]. fold soup. split.
  - assert (filter (fun e => e.1 = k) (omap sub_panel_entry after) = []) as Hnone.
    { clear Hsubs. induction after as [|s after IH]; [done|].
      apply Forall_cons in Hafter as [Hs Hafter]. rewrite omap_cons_eq.
      destruct (sub_panel_entry s) as [[k' t']|] eqn:Hs'; [|by apply IH].
      rewrite filter_cons. simpl. rewrite decide_False; [by apply IH|].
      intros ->. by apply (Hs t'). }
    rewrite sub_panels_as_fold, foldl_sub_panel_lookup, Hsubs.
    rewrite omap_app, filter_app, omap_cons_eq, Hentry, filter_cons, Hnone.
    simpl. rewrite decide_True; [|done]. by rewrite last_snoc.
  - unfold sub_panel_entry in Hentry.
    destruct (negb _ && negb _) eqn:Hcond; [|done]. simplify_eq.
    apply andb_true_iff in Hcond as [_ Htext].
    split_and!; [done| |done].
    intros Hempty. rewrite Hempty in Htext. done.
Qed.

(** *** Splitting, and the cookie string *)

Lemma contains_char_cons (a c : ascii) (s : string) :
  PyStr.contains (String a "") (String c s)
  = Ascii.eqb a c || PyStr.contains (String a "") s.
Proof. cbn [PyStr.contains PyStr.startswith]. by rewrite andb_true_r. Qed.

Lemma contains_char_app (a : ascii) (s t : string) :
  PyStr.contains (String a "") (s +:+ t)
  = PyStr.contains (String a "") s || PyStr.contains (String a "") t.
Proof.
  induction s as [|c s IH]; [done|].
  change (String c s +:+ t) with (String c (s +:+ t)).
  by rewrite !contains_char_cons, IH, orb_assoc.
Qed.

Lemma split_not_nil (sep : ascii) (s : string) : PyStr.split sep s ≠ [].
Proof.
  induction s as [|c s IH]; [done|]. cbn [PyStr.split].
  destruct (Ascii.eqb c sep); [done|]. by destruct (PyStr.split sep s).
Qed.

Lemma split_without_sep (sep : ascii) (s : string) :
  PyStr.contains (String sep "") s = false → PyStr.split sep s = [s].
Proof.
  induction s as [|c s IH]; [done|]. rewrite contains_char_cons.
  intros [Hc Hs]%orb_false_iff. cbn [PyStr.split].
  rewrite Ascii.eqb_sym, Hc. by rewrite IH.
Qed.

Lemma split_app (sep : ascii) (s t : string) :
  PyStr.contains (String sep "") s = false →
  PyStr.split sep (s +:+ String sep t) = s :: PyStr.split sep t.
Proof.
  induction s as [|c s IH].
  - intros _. change ("" +:+ String sep t) with (String sep t).
    cbn [PyStr.split]. by rewrite Ascii.eqb_refl.
  - rewrite contains_char_cons. intros [Hc Hs]%orb_false_iff.
    change (String c s +:+ String sep t) with (String c (s +:+ String sep t)).
    cbn [PyStr.split]. rewrite Ascii.eqb_sym, Hc. by rewrite IH.
Qed.

Lemma split_pieces_without (a sep : ascii) (s : string) :
  PyStr.contains (String a "") s = false →
  Forall (fun piece => PyStr.contains (String a "") piece = false) (PyStr.split sep s).
Proof.
  induction s as [|c s IH]; [by repeat constructor|]. rewrite contains_char_cons.
  intros [Hc Hs]%orb_false_iff. cbn [PyStr.split]. specialize (IH Hs).
  destruct (Ascii.eqb c sep).
  - by constructor.
  - destruct (PyStr.split sep s) as [|piece pieces].
    + constructor; [|done]. rewrite contains_char_cons, Hc. done.
    + apply Forall_cons in IH as [Hpiece Hpieces].
      constructor; [|done]. by rewrite contains_char_cons, Hc.
Qed.

Lemma split_once_app (sep : ascii) (s t : string) :
  PyStr.contains (String sep "") s = false →
  PyStr.split_once sep (s +:+ String sep t) = [s; t].
Proof.
  induction s as [|c s IH].
  - intros _. change ("" +:+ String sep t) with (String sep t).
    cbn [PyStr.split_once]. by rewrite Ascii.eqb_refl.
  - rewrite contains_char_cons. intros [Hc Hs]%orb_false_iff.
    change (String c s +:+ String sep t) with (String c (s +:+ String sep t)).
    cbn [PyStr.split_once]. rewrite Ascii.eqb_sym, Hc. by rewrite IH.
Qed.

Lemma split_once_pair (sep : ascii) (s : string) :
  PyStr.contains (String sep "") s = true →
  ∃ name value, PyStr.split_once sep s = [name; value].
Proof.
  induction s as [|c s IH]; [done|]. rewrite contains_char_cons.
  cbn [PyStr.split_once]. rewrite (Ascii.eqb_sym sep c).
  destruct (Ascii.eqb c sep); [by eauto|]. simpl.
  intros (name & value & ->)%IH. eauto.
Qed.

Lemma lstrip_by_contains (p : ascii → bool) (a : ascii) (s : string) :
  p a = false →
  PyStr.contains (String a "") s = true →
  PyStr.contains (String a "") (PyStr.lstrip_by p s) = true.
Proof.
  intros Ha. induction s as [|c s IH]; [done|]. cbn [PyStr.lstrip_by].
  destruct (p c) eqn:Hc; [|done]. rewrite contains_char_cons.
  destruct (Ascii.eqb_spec a c) as [->|_]; [congruence|]. apply IH.
Qed.

Lemma rstrip_by_contains (p : ascii → bool) (a : ascii) (s : string) :
  p a = false →
  PyStr.contains (String a "") s = true →
  PyStr.contains (String a "") (PyStr.rstrip_by p s) = true.
Proof.
  intros Ha. induction s as [|c s IH]; [done|]. rewrite contains_char_cons.
  cbn [PyStr.rstrip_by]. destruct (Ascii.eqb_spec a c) as [<-|_]; simpl.
  - intros _. rewrite Ha.
    destruct (PyStr.rstrip_by p s); rewrite contains_char_cons, Ascii.eqb_refl; done.
  - intros Hs. specialize (IH Hs).
    destruct (PyStr.rstrip_by p s); [done|].
    rewrite contains_char_cons, IH. apply orb_true_r.
Qed.

Lemma strip_contains (a : ascii) (s : string) :
  PyStr.isspace a = false →
  PyStr.contains (String a "") s = true →
  PyStr.contains (String a "") (PyStr.strip s) = true.
Proof.
  intros Ha Hs. unfold PyStr.strip.
  by apply rstrip_by_contains, lstrip_by_contains.
Qed.

Lemma rstrip_by_app (p : ascii → bool) (s t : string) :
  t ≠ "" → PyStr.rstrip_by p t = t → PyStr.rstrip_by p (s +:+ t) = s +:+ t.
Proof.
  intros Hne Ht. induction s as [|c s IH]; [done|].
  change (String c s +:+ t) with (String c (s +:+ t)).
  cbn [PyStr.rstrip_by]. rewrite IH.
  destruct (s +:+ t) eqn:Happ; [|done].
  destruct s; [|done]. by destruct t.
Qed.

(** The loop over the pieces never fails: a piece with "=" still has one
    after [strip], so it is cut in two. *)
Lemma store_cookie_some cookies cookie :
  ∃ cookies', store_cookie cookies cookie = Some cookies' ∧
              (PyStr.contains "=" cookie = false → cookies' = cookies).
Proof.
  unfold store_cookie. destruct (PyStr.contains "=" cookie) eqn:Heq.
  - apply (strip_contains "=") in Heq; [|done].
    apply split_once_pair in Heq as (name & value & ->).
    eexists. split; [reflexivity|done].
  - eexists. split; [reflexivity|done].
Qed.

Lemma store_cookies_some pieces cookies :
  ∃ cookies', store_cookies cookies pieces = Some cookies' ∧
              (Forall (fun piece => PyStr.contains "=" piece = false) pieces →
               cookies' = cookies).
Proof.
  revert cookies. induction pieces as [|cookie pieces IH]; intros cookies; [by eauto|].
  cbn [store_cookies].
  destruct (store_cookie_some cookies cookie) as (c1 & -> & H1). simpl.
  destruct (IH c1) as (c2 & -> & H2). exists c2. split; [done|].
  intros [Hc Hp]%Forall_cons. rewrite H2, H1; done.
Qed.

(** X7: [get_session] returns a session for every configuration: the
    unpacking of line 34 never raises.  The session carries the
    [User-Agent] of line 46; it has the credentials exactly when the cookie
    string is empty and both the user name and the password are not; and it
    has no cookie when the cookie string is empty. *)
Theorem get_session_configured (JIRA_COOKIE JIRA_USERNAME JIRA_PASSWORD : string)
    (default_headers : gmap string string) :
  ∃ s, get_session JIRA_COOKIE JIRA_USERNAME JIRA_PASSWORD default_headers = Some s ∧
       headers s !! "User-Agent" = Some user_agent ∧
       auth s = (if String.eqb JIRA_COOKIE "" && negb (String.eqb JIRA_USERNAME "")
                    && negb (String.eqb JIRA_PASSWORD "")
                 then Some (JIRA_USERNAME, JIRA_PASSWORD) else None) ∧
       (JIRA_COOKIE = "" → session_cookies s = ∅).
Proof.
  unfold get_session. destruct (String.eqb_spec JIRA_COOKIE "") as [->|Hcookie]; simpl.
  - destruct (negb (String.eqb JIRA_USERNAME "") && negb (String.eqb JIRA_PASSWORD ""));
      simpl; eexists; (split; [reflexivity|]); simpl;
      (split_and!; [by rewrite lookup_insert_eq|done|done]).
  - destruct (store_cookies_some (PyStr.split ";" JIRA_COOKIE) ∅) as (cookies & -> & _).
    simpl. eexists. split; [reflexivity|]. simpl.
    split_and!; [by rewrite lookup_insert_eq|done|done].
Qed.

(** X8: a cookie string that is not empty and holds no "=" gives a session
    without any cookie and without credentials, also when a user name and a
    password are configured. *)
Theorem get_session_cookie_without_equals
    (JIRA_COOKIE JIRA_USERNAME JIRA_PASSWORD : string)
    (default_headers : gmap string string) :
  JIRA_COOKIE ≠ "" →
  PyStr.contains "=" JIRA_COOKIE = false →
  ∃ s, get_session JIRA_COOKIE JIRA_USERNAME JIRA_PASSWORD default_headers = Some s ∧
       session_cookies s = ∅ ∧ auth s = None.
Proof.
  intros Hne Heq. unfold get_session.
  destruct (String.eqb_spec JIRA_COOKIE "") as [|_]; [done|]. simpl.
  destruct (store_cookies_some (PyStr.split ";" JIRA_COOKIE) ∅) as (cookies & -> & Hsame).
  simpl. eexists. split; [reflexivity|]. simpl.
  rewrite Hsame; [|by apply split_pieces_without].
  split; [|done]. unfold jar_update. rewrite fmap_empty. apply (left_id_L ∅ (∪)).
Qed.

Lemma strip_item (lead name value : string) :
  lead = "" ∨ lead = " " →
  PyStr.strip name = name → PyStr.strip value = value →
  PyStr.strip (lead +:+ name +:+ String "=" value) = name +:+ String "=" value.
Proof.
  intros Hlead [Hname _]%strip_fixed [_ Hvalue]%strip_fixed.
  assert (PyStr.strip (name +:+ String "=" value) = name +:+ String "=" value) as Hitem.
  { unfold PyStr.strip. rewrite lstrip_by_fixed.
    - apply rstrip_by_app; [done|]. cbn [PyStr.rstrip_by]. rewrite Hvalue.
      by destruct value.
    - destruct name as [|c name]; [done|].
      change (String c name +:+ String "=" value)
        with (String c (name +:+ String "=" value)).
      cbn [PyStr.lstrip_by] in Hname. destruct (PyStr.isspace c) eqn:Hc; [|done].
      exfalso. pose proof (lstrip_by_length PyStr.isspace name) as Hlen.
      rewrite Hname in Hlen. cbn [String.length] in Hlen. lia. }
  destruct Hlead as [->| ->]; [done|].
  rewrite <-Hitem at 2. done.
Qed.

Lemma store_cookie_item cookies (lead name value : string) :
  lead = "" ∨ lead = " " →
  PyStr.contains "=" name = false →
  PyStr.strip name = name → PyStr.strip value = value →
  store_cookie cookies (lead +:+ name +:+ String "=" value)
  = Some (<[name:=value]> cookies).
Proof.
  intros Hlead Hname Hn Hv. unfold store_cookie.
  rewrite !contains_char_app, contains_char_cons, Ascii.eqb_refl, !orb_true_r.
  by rewrite strip_item, split_once_app.
Qed.

Lemma split_cookie_header (name value : string) (pairs : list (string * string)) :
  Forall (fun p => PyStr.contains ";" p.1 = false ∧ PyStr.contains ";" p.2 = false)
         ((name, value) :: pairs) →
  PyStr.split ";" (cookie_header ((name, value) :: pairs))
  = (name +:+ String "=" value)
      :: ((fun p => " " +:+ p.1 +:+ String "=" p.2) <$> pairs).
Proof.
  revert name value. induction pairs as [|[n v] pairs IH]; intros name value Hall.
  - apply Forall_cons in Hall as [[Hn Hv] _]. simpl in *.
    unfold cookie_header. simpl. apply split_without_sep.
    change (name +:+ "=" +:+ value) with (name +:+ String "=" value).
    by rewrite contains_char_app, contains_char_cons, Hn, Hv.
  - apply Forall_cons in Hall as [[Hn Hv] Hall]. simpl in Hn, Hv.
    change (cookie_header ((name, value) :: (n, v) :: pairs))
      with ((name +:+ String "=" value)
              +:+ String ";" (String " " (cookie_header ((n, v) :: pairs)))).
    rewrite split_app;
      [|by rewrite contains_char_app, contains_char_cons, Hn, Hv].
    f_equal. cbn [PyStr.split]. rewrite (IH n v Hall). done.
Qed.

Lemma store_cookies_items cookies (pairs : list (string * string)) (lead : string) :
  lead = "" ∨ lead = " " →
  Forall (fun p => PyStr.contains "=" p.1 = false ∧
                   PyStr.strip p.1 = p.1 ∧ PyStr.strip p.2 = p.2) pairs →
  store_cookies cookies ((fun p => lead +:+ p.1 +:+ String "=" p.2) <$> pairs)
  = Some (foldl (fun m p => <[p.1:=p.2]> m) cookies pairs).
Proof.
  intros Hlead. revert cookies.
  induction pairs as [|[n v] pairs IH]; intros cookies Hall; [done|].
  apply Forall_cons in Hall as [(Hn & Hsn & Hsv) Hall]. simpl in *.
  rewrite store_cookie_item; [|done..]. simpl. by apply IH.
Qed.

Lemma foldl_insert_list_to_map (pairs : list (string * string)) :
  foldl (fun m p => <[p.1:=p.2]> m) (∅ : gmap string string) pairs
  = list_to_map (reverse pairs).
Proof.
  induction pairs as [|p pairs IH] using rev_ind; [done|].
  by rewrite foldl_app, reverse_snoc, IH.
Qed.

Lemma fmap_list_to_map_fixed (f : string → string) (l : list (string * string)) :
  Forall (fun p => f p.2 = p.2) l →
  f <$> (list_to_map l : gmap string string) = list_to_map l.
Proof.
  induction 1 as [|[k v] l Hp Hl IH]; [apply fmap_empty|].
  simpl in *. by rewrite fmap_insert, IH, Hp.
Qed.

(** X9: a cookie string written as [name1=value1; name2=value2; ...] is
    read back as these cookies, a later cookie replacing an earlier one of
    the same name, each value as the cookie jar stores it: a value between
    double quotes loses every backslash followed by a double quote, and any
    other value is kept as it is.  The names hold no ";" and no "=", the
    values no ";", and neither has white space at its ends. *)
Theorem get_session_reads_cookie_header (pairs : list (string * string))
    (JIRA_USERNAME JIRA_PASSWORD : string) (default_headers : gmap string string) :
  Forall (fun p => PyStr.contains ";" p.1 = false ∧ PyStr.contains "=" p.1 = false ∧
                   PyStr.contains ";" p.2 = false ∧
                   PyStr.strip p.1 = p.1 ∧ PyStr.strip p.2 = p.2) pairs →
  ∃ s, get_session (cookie_header pairs) JIRA_USERNAME JIRA_PASSWORD default_headers
       = Some s ∧
       session_cookies s = set_cookie_value <$> list_to_map (reverse pairs) ∧
       (Forall (fun p => double_quoted p.2 = false) pairs →
        session_cookies s = list_to_map (reverse pairs)).
Proof.
  intros Hall.
  assert (∃ s, get_session (cookie_header pairs) JIRA_USERNAME JIRA_PASSWORD
                 default_headers = Some s ∧
               session_cookies s = set_cookie_value <$> list_to_map (reverse pairs))
    as (s & Hs & Hcookies).
  { destruct pairs as [|[name value] pairs].
    - unfold get_session. simpl.
      destruct (negb (String.eqb JIRA_USERNAME "") && negb (String.eqb JIRA_PASSWORD ""));
        simpl; eexists; (split; [reflexivity|]); simpl; by rewrite fmap_empty.
    - unfold get_session.
      assert (String.eqb (cookie_header ((name, value) :: pairs)) "" = false) as ->.
      { apply String.eqb_neq. intros Hempty.
        assert (PyStr.split ";" (cookie_header ((name, value) :: pairs)) = [""])
          as Hsplit by by rewrite Hempty.
        rewrite split_cookie_header in Hsplit.
        - simplify_eq. by destruct name.
        - eapply Forall_impl; [exact Hall|]. by intros p (? & _ & ? & _). }
      simpl. rewrite split_cookie_header;
        [|eapply Forall_impl; [exact Hall|]; by intros p (? & _ & ? & _)].
      apply Forall_cons in Hall as [(_ & Hn & _ & Hsn & Hsv) Hall]. simpl in *.
      cbn [store_cookies].
      rewrite (store_cookie_item ∅ "" name value); [|by left|done..]. simpl.
      rewrite (store_cookies_items _ pairs " ");
        [|by right|eapply Forall_impl; [exact Hall|]; by intros p (_ & ? & _ & ? & ?)].
      simpl. eexists. split; [reflexivity|]. simpl.
      unfold jar_update. rewrite (right_id_L ∅ (∪)).
      by rewrite <-(foldl_insert_list_to_map ((name, value) :: pairs)). }
  exists s. split; [done|]. split; [done|].
  intros Hplain. rewrite Hcookies. apply fmap_list_to_map_fixed.
  apply Forall_reverse. eapply Forall_impl; [exact Hplain|].
  intros p Hp. unfold set_cookie_value. by rewrite Hp.
Qed.

(** X11: a record that [fetch_user_profile] returns is the extraction of
    the page that was answered; it carries the id that was asked for, and
    as profile URL the URL that was requested, with [id=] for an id that
    starts with "JIRAUSER" and [name=] for any other, whatever URL the
    answer came from. *)
Theorem fetch_user_profile_record `{World} (session : session) (user_id : string)
    (net net' : net_state) (u : user_record) :
  fetch_user_profile session user_id net = (Ok (Some u), net') →
  id_ u = user_id ∧
  profile_url u
  = JIRA_SERVER +:+ "/secure/ViewProfile.jspa?"
      +:+ (if PyStr.startswith "JIRAUSER" user_id then "id" else "name")
      +:+ "=" +:+ user_id ∧
  ∃ response,
    session_get session (profile_url u) net = (Some response, net') ∧
    parse_user_profile (response_text response) user_id (profile_url u) = Ok u.
Proof.
  unfold fetch_user_profile.
  destruct (session_get session (profile_request_url user_id) net)
    as [[response|] net1] eqn:Hget; [|done].
  destruct (http_error response); [done|].
  destruct (_ || _); [done|].
  destruct (parse_user_profile_total (response_text response) user_id
              (profile_request_url user_id)) as (u' & Hparse & Hid & Hurl).
  rewrite Hparse. intros [= <- <-].
  split; [done|]. split; [done|]. rewrite Hurl. eauto.
Qed.

(** X12: a user whose id holds "login", in any case, gets no record when
    the answer comes from the requested URL: the test of line 63 looks for
    "login" in the whole URL, which ends with the id. *)
Theorem fetch_user_profile_login_in_id `{World} (session : session) (user_id : string)
    (net net' : net_state) (response : response) :
  PyStr.contains "login" (PyStr.lower user_id) = true →
  session_get session (profile_request_url user_id) net = (Some response, net') →
  response_url response = profile_request_url user_id →
  fetch_user_profile session user_id net = (Ok None, net').
Proof.
  intros Hid Hget Hurl. unfold fetch_user_profile. rewrite Hget.
  destruct (http_error response); [done|].
  assert (PyStr.contains "login" (PyStr.lower (response_url response)) = true) as ->;
    [|done].
  rewrite Hurl. unfold profile_request_url. rewrite !lower_app.
  by do 4 apply contains_app_r.
Qed.

(** *** The avatar download *)

Lemma avatar_extension_cases (avatar_url : string) :
  avatar_extension avatar_url ∈ [".png"; ".jpg"; ".gif"].
Proof.
  unfold avatar_extension.
  destruct (_ || _); [by repeat constructor|].
  destruct (PyStr.contains ".gif" _); by repeat constructor.
Qed.

(** X13: a file name that [download_avatar] returns is the user id followed
    by ".jpg", ".gif" or ".png"; the URL was not empty, its request was
    answered with a status that is no error, and the answer's content was
    written to the path that [pathlib] joins from the avatar directory and
    that name. *)
Theorem download_avatar_success `{World} (session : session)
    (user_id avatar_url avatars_dir filename : string)
    (net net' : net_state) (fs fs' : fs_state) :
  download_avatar session user_id avatar_url avatars_dir (net, fs)
  = (Some filename, (net', fs')) →
  avatar_url ≠ "" ∧
  filename = user_id +:+ avatar_extension avatar_url ∧
  avatar_extension avatar_url ∈ [".png"; ".jpg"; ".gif"] ∧
  ∃ response,
    session_get session avatar_url net = (Some response, net') ∧
    http_error response = false ∧
    write_file (path_join avatars_dir filename) (response_content response) fs
    = (true, fs').
Proof.
  unfold download_avatar.
  destruct (String.eqb_spec avatar_url "") as [|Hne]; [done|].
  destruct (session_get session avatar_url net) as [[response|] net1] eqn:Hget; [|done].
  destruct (http_error response) eqn:Herr; [done|].
  destruct (write_file _ _ fs) as [written fs1] eqn:Hwrite.
  destruct written; [|done]. intros [= <- <- <-].
  split; [done|]. split; [done|]. split; [apply avatar_extension_cases|].
  exists response. by rewrite Hwrite.
Qed.

(** X14: [download_avatar] never raises.  With an empty URL it makes no
    request and writes nothing; when the request fails or is answered with
    an error status it returns no name and leaves the files as they were. *)
Theorem download_avatar_failure `{World} (session : session)
    (user_id avatar_url avatars_dir : string) (net : net_state) (fs : fs_state) :
  (avatar_url = "" →
   download_avatar session user_id avatar_url avatars_dir (net, fs) = (None, (net, fs))) ∧
  (avatar_url ≠ "" →
   match (session_get session avatar_url net).1 with
   | Some response => http_error response = true
   | None => True
   end →
   download_avatar session user_id avatar_url avatars_dir (net, fs)
   = (None, ((session_get session avatar_url net).2, fs))).
Proof.
  unfold download_avatar. split.
  - by intros ->.
  - intros Hne Hfail. destruct (String.eqb_spec avatar_url "") as [|_]; [done|].
    destruct (session_get session avatar_url net) as [[response|] net1]; [|done].
    simpl in *. by rewrite Hfail.
Qed.

(** *** The id file and the main loop *)

(** X15: the ids read from the id file are the trimmed lines, in the order
    of the file, without the lines that are empty once trimmed; so no id is
    empty and none has white space at its ends. *)
Theorem read_user_ids_trimmed (lines : list string) :
  read_user_ids lines
  = filter (fun user_id => user_id ≠ "") (PyStr.strip <$> lines) ∧
  (∀ lines', read_user_ids (lines ++ lines') = read_user_ids lines ++ read_user_ids lines') ∧
  ∀ user_id, user_id ∈ read_user_ids lines →
    user_id ≠ "" ∧ PyStr.strip user_id = user_id ∧
    ∃ line, line ∈ lines ∧ user_id = PyStr.strip line.
Proof.
  unfold read_user_ids. split_and!.
  - induction lines as [|line lines IH]; [done|].
    rewrite fmap_cons, !filter_cons.
    destruct (decide (PyStr.strip line ≠ "")); [|done].
    by rewrite fmap_cons, IH.
  - intros lines'. by rewrite filter_app, fmap_app.
  - intros user_id (line & -> & [Hline Hin]%list_elem_of_filter)%list_elem_of_fmap.
    split_and!; [done|apply strip_idemp|by exists line].
Qed.

Lemma fetch_user_profile_ok `{World} (session : session) (user_id : string)
    (net : net_state) :
  ∃ r net', fetch_user_profile session user_id net = (Ok r, net') ∧
            ∀ u, r = Some u → id_ u = user_id.
Proof.
  unfold fetch_user_profile.
  destruct (session_get session (profile_request_url user_id) net)
    as [[response|] net1]; [|by eexists _, _].
  destruct (http_error response); [by eexists _, _|].
  destruct (_ || _); [by eexists _, _|].
  destruct (parse_user_profile_total (response_text response) user_id
              (profile_request_url user_id)) as (u' & -> & Hid & _).
  eexists _, _. split; [done|]. by intros u [= <-].
Qed.

Lemma download_avatar_name `{World} (session : session)
    (user_id avatar_url avatars_dir filename : string)
    (w w' : net_state * fs_state) :
  download_avatar session user_id avatar_url avatars_dir w = (Some filename, w') →
  filename = user_id +:+ avatar_extension avatar_url.
Proof.
  unfold download_avatar. destruct w as [net fs].
  destruct (String.eqb avatar_url ""); [done|].
  destruct (session_get session avatar_url net) as [[response|] net1]; [|done].
  destruct (http_error response); [done|].
  destruct (write_file _ _ fs) as [[|] fs1]; [|done]. by intros [= <- <-].
Qed.

(** One turn of the loop: it does not raise, appends at most one user, who
    has the id of the turn, and sleeps unless the id is the last. *)
Lemma process_user_step `{World} (session : session) (avatars_dir : string)
    (total i : nat) (user_id : string) (all_users : list saved_user) (sleeps : nat)
    (w : net_state * fs_state) :
  ∃ new w',
    process_user session avatars_dir total i user_id (all_users, sleeps, w)
    = Ok (all_users ++ new, if i <? total then S sleeps else sleeps, w') ∧
    (id_ ∘ saved_record <$> new) `sublist_of` [user_id] ∧
    Forall (fun su =>
              match avatar_filename su with
              | Some filename =>
                  ∃ a, avatar_url (saved_record su) = Some a ∧
                       filename = id_ (saved_record su) +:+ avatar_extension a
              | None => True
              end) new.
Proof.
  unfold process_user. destruct w as [net fs].
  destruct (fetch_user_profile_ok session user_id net) as (r & net1 & -> & Hid).
  cbn -[download_avatar]. destruct r as [u|].
  - specialize (Hid u eq_refl). destruct (avatar_url u) as [a|] eqn:Ha.
    + destruct (download_avatar session user_id a avatars_dir (net1, fs))
        as [filename w1] eqn:Hdl.
      eexists [_], w1. split; [reflexivity|]. simpl. rewrite Hid.
      split; [done|]. constructor; [|done]. simpl.
      destruct filename as [[|c filename]|]; [done| |done].
      apply download_avatar_name in Hdl. exists a. by rewrite Hid.
    + eexists [_], _. split; [reflexivity|]. simpl. rewrite Hid.
      split; [done|]. by constructor.
  - eexists [], _. rewrite app_nil_r. split; [reflexivity|].
    split; [apply sublist_nil_l|done].
Qed.

Lemma main_loop_from_run `{World} (session : session) (avatars_dir : string)
    (total : nat) (user_ids : list string) (i : nat) (all_users : list saved_user)
    (sleeps : nat) (w : net_state * fs_state) :
  ∃ new w',
    main_loop_from session avatars_dir total i user_ids (all_users, sleeps, w)
    = Ok (all_users ++ new, sleeps + length user_ids `min` (total - i), w') ∧
    (id_ ∘ saved_record <$> new) `sublist_of` user_ids ∧
    Forall (fun su =>
              match avatar_filename su with
              | Some filename =>
                  ∃ a, avatar_url (saved_record su) = Some a ∧
                       filename = id_ (saved_record su) +:+ avatar_extension a
              | None => True
              end) new.
Proof.
  revert i all_users sleeps w.
  induction user_ids as [|user_id user_ids IH]; intros i all_users sleeps w.
  - exists [], w. simpl. rewrite app_nil_r, Nat.add_0_r. by split_and!.
  - cbn [main_loop_from].
    destruct (process_user_step session avatars_dir total i user_id all_users sleeps w)
      as (new1 & w1 & -> & Hsub1 & Hall1).
    simpl.
    destruct (IH (S i) (all_users ++ new1)
                 (if i <? total then S sleeps else sleeps) w1)
      as (new2 & w2 & -> & Hsub2 & Hall2).
    exists (new1 ++ new2), w2. split_and!.
    + rewrite app_assoc. do 2 f_equal. f_equal.
      destruct (Nat.ltb_spec i total); destruct (total - i) eqn:Hleft; lia.
    + rewrite fmap_app. by apply (sublist_app _ [user_id]).
    + by apply Forall_app.
Qed.

(** X17: the main loop sleeps once after every id but the last: for [n]
    ids it calls [time.sleep] [n - 1] times, and never for an empty list. *)
Theorem main_loop_sleeps `{World} (session : session) (avatars_dir : string)
    (user_ids : list string) (w : net_state * fs_state) :
  ∃ all_users w',
    main_loop session avatars_dir user_ids w
    = Ok (all_users, length user_ids - 1, w').
Proof.
  unfold main_loop.
  destruct (main_loop_from_run session avatars_dir (length user_ids) user_ids 1 [] 0 w)
    as (new & w' & -> & _).
  eexists _, _. do 2 f_equal. f_equal. lia.
Qed.

(** X18: a collected user has an avatar file name only when its record has
    an avatar URL, and the name is then the user's id followed by the
    extension for that URL. *)
Theorem main_loop_avatar_filenames `{World} (session : session) (avatars_dir : string)
    (user_ids : list string) (w : net_state * fs_state) :
  ∃ all_users sleeps w',
    main_loop session avatars_dir user_ids w = Ok (all_users, sleeps, w') ∧
    ∀ su filename,
      su ∈ all_users → avatar_filename su = Some filename →
      ∃ a, avatar_url (saved_record su) = Some a ∧
           filename = id_ (saved_record su) +:+ avatar_extension a.
Proof.
  unfold main_loop.
  destruct (main_loop_from_run session avatars_dir (length user_ids) user_ids 1 [] 0 w)
    as (new & w' & -> & _ & Hall).
  eexists _, _, _. split; [reflexivity|]. simpl. intros su filename Hsu Hname.
  rewrite Forall_forall in Hall. specialize (Hall su Hsu). by rewrite Hname in Hall.
Qed.

Lemma foldl_insert_other (pairs : list (string * string)) (m : gmap string string)
    (k : string) :
  k ∉ pairs.*1 → foldl (fun m kv => <[kv.1:=kv.2]> m) m pairs !! k = m !! k.
Proof.
  revert m. induction pairs as [|[k' v'] pairs IH]; intros m Hk; [done|].
  simpl in *. apply not_elem_of_cons in Hk as [Hne Hk].
  rewrite IH; [|done]. by rewrite lookup_insert_ne.
Qed.

(** X19: within one definition list a key that occurs more than once keeps
    the value of its last occurrence: after the list is handled, the
    mapping under [profile_details] gives that value for the key.  Keys are
    compared as they are written. *)
Theorem profile_details_last_value (dl : node) (before after : list (string * string))
    (k v : string) :
  dl_pairs dl = before ++ (k, v) :: after →
  k ∉ after.*1 →
  ∀ u, ∃ m, sections (definition_list u dl) !! "profile_details" = Some (KeyValues m) ∧
            m !! k = Some v ∧
            ∀ k', m !! k' = None ↔ k' ∉ (dl_pairs dl).*1.
Proof.
  intros Hpairs Hk u. exists (section_data_of (dl_pairs dl)).
  unfold definition_list. rewrite store_pairs_sections. split_and!.
  - rewrite Hpairs. destruct before; simpl; by rewrite lookup_insert_eq.
  - rewrite Hpairs. unfold section_data_of. rewrite foldl_app. simpl.
    rewrite foldl_insert_other; [|done]. by rewrite lookup_insert_eq.
  - intros k'. generalize (dl_pairs dl). intros pairs.
    induction pairs as [|[k1 v1] pairs IH] using rev_ind.
    { split; [intros _; apply not_elem_of_nil|intros _; apply lookup_empty]. }
    rewrite section_data_of_snoc, fmap_app, lookup_insert_None, IH. simpl.
    rewrite not_elem_of_app, not_elem_of_cons. split.
    + intros [? ?]. split_and!; [done|congruence|apply not_elem_of_nil].
    + intros (? & ? & _). split; [congruence|done].
Qed.

(** X20: [email] is absent exactly when the document has no link whose
    target starts with "mailto:"; and when the target of the first such
    link holds "mailto:" at its start only, [email] is the rest of that
    target. *)
Theorem email_of_mailto_links html_content user_id url :
  let mailto_links :=
    find_all (fun n => named ["a"] n &&
                       attr_test "href" (PyStr.startswith "mailto:") n)
             (BeautifulSoup html_content) in
  ∃ u, parse_user_profile html_content user_id url = Ok u ∧
       (email u = None ↔ mailto_links = []) ∧
       ∀ mailto_link others rest,
         mailto_links = mailto_link :: others →
         get "href" mailto_link = Some ("mailto:" +:+ rest) →
         PyStr.contains "mailto:" rest = false →
         email u = Some rest.
Proof.
  intros mailto_links.
  destruct (email_of_first_mailto_link html_content user_id url)
    as (u & Hparse & Hemail).
  fold mailto_links in Hemail. exists u. split; [done|]. split.
  - rewrite Hemail. destruct mailto_links as [|link links] eqn:Hlinks; [done|].
    assert (link ∈ mailto_links) as Hin by (rewrite Hlinks; left).
    apply list_elem_of_filter in Hin as [Hp _].
    apply andb_true_iff in Hp as [_ Hp]. unfold attr_test in Hp.
    destruct (get "href" link); done.
  - intros link others rest Hlinks Hhref Hrest.
    rewrite Hemail, Hlinks, Hhref. cbn [fmap option_fmap option_map].
    by rewrite replace_prefix, replace_absent.
Qed.

(** *** Runs in which a library call raises *)

Lemma extract_avatar_call_cases `{Library} (soup : node) (u : user_record) :
  extract_avatar_call soup u
  = match avatar_img soup with
    | Some img =>
        match get "src" img with
        | Some src =>
            if String.eqb src "" then Returned u
            else match normalize_avatar_url_call src with
                 | Returned a => Returned (set_avatar_url a u)
                 | Thrown e => Thrown e
                 end
        | None => Returned u
        end
    | None => Returned u
    end.
Proof.
  clear urljoin BeautifulSoup.
  unfold extract_avatar_call, getitem.
  destruct (avatar_img soup) as [img|]; [|done].
  destruct (get "src" img) as [[|c src]|]; done.
Qed.

(** A run that raises does so in the parser or in [urljoin], on the
    root-relative [src] of the chosen image. *)
Lemma parse_user_profile_call_thrown `{Library} (html_content user_id url : string)
    (e : exception) :
  parse_user_profile_call html_content user_id url = Thrown e →
  (e = ParserRejectedMarkup ∧ BeautifulSoup_call html_content = None)
  ∨ (e = ValueError ∧
     ∃ soup img src,
       BeautifulSoup_call html_content = Some soup ∧
       avatar_img soup = Some img ∧ get "src" img = Some src ∧
       PyStr.startswith "//" src = false ∧ PyStr.startswith "/" src = true ∧
       urljoin_call JIRA_SERVER src = None).
Proof.
  clear urljoin BeautifulSoup.
  unfold parse_user_profile_call.
  destruct (BeautifulSoup_call html_content) as [soup|] eqn:Hsoup; simpl;
    [|intros [= <-]; by left].
  rewrite extract_avatar_call_cases.
  destruct (avatar_img soup) as [img|] eqn:Himg;
    [|simpl; by rewrite extract_email_ok].
  destruct (get "src" img) as [src|] eqn:Hsrc;
    [|simpl; by rewrite extract_email_ok].
  destruct (String.eqb src ""); [simpl; by rewrite extract_email_ok|].
  unfold normalize_avatar_url_call.
  destruct (PyStr.startswith "//" src) eqn:H2; [simpl; by rewrite extract_email_ok|].
  destruct (PyStr.startswith "/" src) eqn:H1; [|simpl; by rewrite extract_email_ok].
  destruct (urljoin_call JIRA_SERVER src) as [joined|] eqn:Hjoin;
    [simpl; by rewrite extract_email_ok|].
  simpl. intros [= <-]. right. split; [done|]. by exists soup, img, src.
Qed.

Lemma parse_user_profile_call_value_error `{Library} (html_content user_id url : string)
    (soup img : node) (src : string) :
  BeautifulSoup_call html_content = Some soup →
  avatar_img soup = Some img → get "src" img = Some src →
  PyStr.startswith "//" src = false → PyStr.startswith "/" src = true →
  urljoin_call JIRA_SERVER src = None →
  parse_user_profile_call html_content user_id url = Thrown ValueError.
Proof.
  clear urljoin BeautifulSoup.
  intros Hsoup Himg Hsrc H2 H1 Hjoin. unfold parse_user_profile_call.
  rewrite Hsoup. simpl. rewrite extract_avatar_call_cases, Himg, Hsrc.
  destruct (String.eqb_spec src "") as [->|_]; [done|].
  unfold normalize_avatar_url_call. by rewrite H2, H1, Hjoin.
Qed.

(** A run that returns gives the record of [parse_user_profile] for the
    values that the two library calls returned. *)
Lemma parse_user_profile_call_returned `{Library} (html_content user_id url : string)
    (u : user_record) :
  returns_of →
  parse_user_profile_call html_content user_id url = Returned u →
  parse_user_profile html_content user_id url = Ok u.
Proof.
  intros [Hparser Hjoin]. unfold parse_user_profile_call, parse_user_profile.
  destruct (BeautifulSoup_call html_content) as [soup|] eqn:Hsoup; [|done].
  rewrite (Hparser _ _ Hsoup). simpl.
  rewrite extract_avatar_call_cases, extract_avatar_ok. simpl.
  assert (∀ src a, normalize_avatar_url_call src = Returned a →
                   normalize_avatar_url src = a) as Hnorm.
  { intros src a. unfold normalize_avatar_url_call, normalize_avatar_url.
    destruct (PyStr.startswith "//" src); [by intros [= <-]|].
    destruct (PyStr.startswith "/" src); [|by intros [= <-]].
    destruct (urljoin_call JIRA_SERVER src) as [joined|] eqn:Hj; [|done].
    intros [= <-]. by apply Hjoin. }
  destruct (avatar_img soup) as [img|];
    [|simpl; rewrite !extract_email_ok; simpl; by intros [= <-]].
  destruct (get "src" img) as [src|];
    [|simpl; rewrite !extract_email_ok; simpl; by intros [= <-]].
  destruct (String.eqb src "");
    [simpl; rewrite !extract_email_ok; simpl; by intros [= <-]|].
  destruct (normalize_avatar_url_call src) as [a|e] eqn:Hcall; [|done].
  rewrite (Hnorm src a Hcall). simpl. rewrite !extract_email_ok. simpl.
  by intros [= <-].
Qed.


(** *** Fetching and the main loop with library calls that may raise *)









End Extraction.

(** ** The extraction on the example documents *)

(** C2, where the code departs from it: on a mailto link whose target
    holds "mailto:" a second time, [email] loses both occurrences, so the
    rest of the target is not left as it was. *)
Theorem email_drops_every_mailto :
  ∃ u, parse_user_profile default_JIRA_SERVER urljoin_origin html_parser
         mailto_twice_html "jane" jane_url = Ok u ∧
       email u = Some "jane@example.com?subject=links" ∧
       email u ≠ Some "jane@example.com?subject=mailto:links".
Proof.
  eexists. split; [reflexivity|]. split; [by vm_compute|].
  vm_compute. discriminate.
Qed.

(** The end-to-end example of the specification. *)
Example jane_page_record :
  ∃ u, parse_user_profile default_JIRA_SERVER urljoin_origin html_parser
         jane_html "jane" jane_url = Ok u ∧
       page_title u = Some "Profile: Jane Doe" ∧
       full_name u = Some "Jane Doe" ∧
       email u = Some "jane@example.com" ∧
       details u = {["email" := "jane@example.com"]} ∧
       sections u = {["profile_details" := KeyValues {["Email" := "jane@example.com"]}]}.
Proof. eexists. split; [reflexivity|]. by vm_compute. Qed.

(** The string methods on small inputs. *)
Example strip_example : PyStr.strip "  Jane  Doe  " = "Jane  Doe".
Proof. reflexivity. Qed.

Example rstrip_example : PyStr.rstrip ":" "Last Login::" = "Last Login".
Proof. reflexivity. Qed.

Example normalized_key_example : normalized_key "Last Login" = "last_login".
Proof. reflexivity. Qed.

Example table_key_example : table_key 12 = "table_12".
Proof. reflexivity. Qed.

(** Counterexample to C3 as the specification words it: the key
    [full_name] is paired and is in the fixed set once normalized, and
    [details] has no entry for it. *)
Lemma details_misses_underscore_key :
  ("full_name", "Jane Doe") ∈ paired (html_parser underscore_key_html) ∧
  normalized_key "full_name" ∈ recognized_keys ∧
  ∃ u, parse_user_profile default_JIRA_SERVER urljoin_origin
         html_parser underscore_key_html "jane" jane_url = Ok u ∧
       details u !! normalized_key "full_name" = None.
Proof.
  split; [vm_compute; apply list_elem_of_here|].
  split; [vm_compute; set_solver|].
  eexists. split; [reflexivity|]. by vm_compute.
Qed.

Lemma parse_user_profile_no_markers_witness :
  parse_user_profile default_JIRA_SERVER urljoin_origin html_parser
    plain_html "jane" jane_url
  = Ok (UserRecord "jane" jane_url None None None None None ∅ ∅).
Proof.
  apply (parse_user_profile_no_markers default_JIRA_SERVER urljoin_origin
           html_parser plain_html "jane" jane_url).
  apply Forall_forall. vm_compute. repeat constructor.
Defined.

Lemma details_of_common_fields_witness :
  ∃ u, parse_user_profile default_JIRA_SERVER urljoin_origin html_parser
         jane_html "jane" jane_url = Ok u ∧
       details u !! "email" = Some "jane@example.com".
Proof.
  destruct (details_of_common_fields default_JIRA_SERVER urljoin_origin
              html_parser jane_html "jane" jane_url) as (u & Hparse & Hkey & _).
  exists u. split; [exact Hparse|].
  apply (Hkey [] "Email" "jane@example.com" []).
  - reflexivity.
  - vm_compute. set_solver.
  - constructor.
Defined.


Lemma tables_keyed_by_position_witness :
  ∃ u, parse_user_profile default_JIRA_SERVER urljoin_origin html_parser
         two_tables_html "jane" jane_url = Ok u ∧
       sections u !! "table_1" = Some (Rows [["Name"; "Jane"]]).
Proof.
  destruct (tables_keyed_by_position default_JIRA_SERVER urljoin_origin
              html_parser two_tables_html "jane" jane_url 1 cells_table)
    as (_ & _ & u & Hparse & Hkey); [reflexivity|].
  exists u. split; [exact Hparse|].
  apply Hkey. vm_compute. apply not_elem_of_nil.
Defined.

Lemma pairing_stops_at_shorter_witness :
  dl_pairs uneven_list = [("Email", "jane@example.com")].
Proof.
  destruct (pairing_stops_at_shorter default_JIRA_SERVER urljoin_origin
              html_parser uneven_list)
    as (_ & _ & Hpairs & _); [vm_compute; lia|].
  rewrite Hpairs. reflexivity.
Defined.

Lemma profile_details_last_non_empty_witness :
  ∃ u, parse_user_profile default_JIRA_SERVER urljoin_origin html_parser
         two_lists_html "jane" jane_url = Ok u ∧
       sections u !! "profile_details"
       = Some (KeyValues {["Email" := "jane@example.com"]}).
Proof.
  destruct (profile_details_last_non_empty default_JIRA_SERVER urljoin_origin
              html_parser two_lists_html "jane" jane_url
              [] full_list [definition_list_of [("dt", "Groups:")]])
    as (_ & u & Hparse & Hkey).
  - reflexivity.
  - intros Hempty. apply section_data_of_empty in Hempty. discriminate Hempty.
  - repeat constructor.
  - exists u. split; [exact Hparse|].
    rewrite Hkey; [reflexivity|]. vm_compute. apply not_elem_of_nil.
Defined.

Lemma avatar_absent_when_user_logo_lacks_src_witness :
  ∃ u, parse_user_profile default_JIRA_SERVER urljoin_origin
         html_parser logo_without_src_html "jane" jane_url = Ok u ∧
       avatar_url u = None.
Proof.
  apply (avatar_absent_when_user_logo_lacks_src default_JIRA_SERVER urljoin_origin
           html_parser logo_without_src_html "jane" jane_url
           (Tag "img" (Some ["userLogo"]) [("alt", "logo")] []));
    reflexivity.
Defined.


(** ** The session, the fetch and the download on the example tracker *)

Lemma sub_panel_overwrites_witness :
  ∃ u, parse_user_profile default_JIRA_SERVER urljoin_origin site_parser
         panel_html "jane" jane_url = Ok u ∧
       sections u !! "profile_details" = Some (PlainText "About Jane").
Proof.
  destruct (sub_panel_overwrites default_JIRA_SERVER urljoin_origin site_parser
              panel_html "jane" jane_url [] about_subsection []
              "profile_details" "About Jane")
    as (u & Hparse & Hkey & _); [reflexivity|reflexivity|constructor|].
  exists u. by split.
Defined.

Lemma get_session_cookie_without_equals_witness :
  ∃ s, get_session "JSESSIONID" "jane" "secret" ∅ = Some s ∧
       session_cookies s = ∅ ∧ auth s = None.
Proof.
  apply (get_session_cookie_without_equals "JSESSIONID" "jane" "secret" ∅);
    [discriminate|reflexivity].
Defined.


Lemma fetch_user_profile_record_witness :
  ∃ u net',
    @fetch_user_profile default_JIRA_SERVER urljoin_origin site_parser example_world
      plain_session "JIRAUSER134221" [] = (Ok (Some u), net') ∧
    id_ u = "JIRAUSER134221" ∧
    profile_url u
    = "https://issues.jenkins.io/secure/ViewProfile.jspa?id=JIRAUSER134221".
Proof.
  eexists _, _. split; [vm_compute; reflexivity|].
  match goal with
  | |- id_ ?u = _ ∧ _ =>
      destruct (@fetch_user_profile_record default_JIRA_SERVER urljoin_origin
                  site_parser example_world plain_session "JIRAUSER134221" []
                  ["https://issues.jenkins.io/secure/ViewProfile.jspa?id=JIRAUSER134221"]
                  u) as (Hid & Hurl & _); [by vm_compute|]
  end.
  split; [exact Hid|exact Hurl].
Defined.

Lemma fetch_user_profile_login_in_id_witness :
  @fetch_user_profile default_JIRA_SERVER urljoin_origin site_parser example_world
    plain_session "loginov" []
  = (Ok None, ["https://issues.jenkins.io/secure/ViewProfile.jspa?name=loginov"]).
Proof.
  apply (@fetch_user_profile_login_in_id default_JIRA_SERVER urljoin_origin
           site_parser example_world plain_session "loginov" [] _
           (Response 200 "https://issues.jenkins.io/secure/ViewProfile.jspa?name=loginov"
                     jane_html jane_html));
    reflexivity.
Defined.

Lemma download_avatar_success_witness :
  "jane.png" = "jane" +:+ avatar_extension "https://issues.jenkins.io/avatars/jane.png" ∧
  @write_file example_world "avatars/jane.png" "PNG" ∅
  = (true, {["avatars/jane.png" := "PNG"]}).
Proof.
  destruct (@download_avatar_success example_world plain_session "jane"
              "https://issues.jenkins.io/avatars/jane.png" "avatars" "jane.png"
              [] ["https://issues.jenkins.io/avatars/jane.png"]
              ∅ {["avatars/jane.png" := "PNG"]})
    as (_ & Hname & _ & response & Hget & _ & Hwrite); [by vm_compute|].
  split; [exact Hname|]. by vm_compute.
Defined.

Lemma profile_details_last_value_witness :
  ∃ m, sections (definition_list
                   (UserRecord "jane" jane_url None None None None None ∅ ∅)
                   repeated_key_list) !! "profile_details"
       = Some (KeyValues m) ∧
       m !! "Email" = Some "new@example.com".
Proof.
  destruct (profile_details_last_value repeated_key_list
              [("Email", "old@example.com")] [] "Email" "new@example.com"
              eq_refl (not_elem_of_nil _)
              (UserRecord "jane" jane_url None None None None None ∅ ∅))
    as (m & Hsections & Hkey & _).
  exists m. by split.
Defined.

(** ** The script when a library call raises *)

(** C5, where the code departs from it: [urljoin] refuses the reference
    made of a slash, a tab, a slash and an opening bracket with
    [ValueError]; the reference starts with one slash only, so line 108
    passes it on, and neither the normalization nor [parse_user_profile]
    catches the exception. *)
Theorem normalize_avatar_url_raises :
  normalize_avatar_url_call (H:=example_library) default_JIRA_SERVER tab_reference
  = Thrown ValueError ∧
  parse_user_profile_call (H:=example_library) default_JIRA_SERVER
    tab_src_html "jane" jane_url
  = Thrown ValueError.
Proof. split; reflexivity. Qed.

(** Counterexample to C4 as the specification words it: the page has a
    heading, an [h2] with the text "Jane Doe", and the record has no
    [full_name]. *)
Lemma full_name_ignores_other_headings :
  head (find_all (named heading_names) (edge_parser h2_only_html))
  = Some (element "h2" [NavigableString "Jane Doe"]) ∧
  PyStr.strip (text (element "h2" [NavigableString "Jane Doe"])) = "Jane Doe" ∧
  ∃ u, parse_user_profile default_JIRA_SERVER urljoin_origin edge_parser
         h2_only_html "jane" jane_url = Ok u ∧
       full_name u = None.
Proof.
  split; [reflexivity|]. split; [reflexivity|].
  eexists. split; [reflexivity|]. by vm_compute.
Qed.

Lemma returns_of_library `{Library} : returns_of urljoin_of BeautifulSoup_of.
Proof.
  split.
  - intros html_content soup Hsoup. unfold BeautifulSoup_of. by rewrite Hsoup.
  - intros base url joined Hjoined. unfold urljoin_of. by rewrite Hjoined.
Qed.

(** X1: with a parser and a [urljoin] that may raise, a run of
    [parse_user_profile] raises only in one of these two calls: the parser
    rejects the text, or [urljoin] refuses the [src] of the chosen image, a
    [src] that starts with one slash.  The two subscript reads never raise
    [KeyError], and a record that is returned has the id and the profile
    URL of the caller. *)
Theorem parse_user_profile_call_guarded `{Library}
    (JIRA_SERVER html_content user_id url : string) :
  (∀ key, parse_user_profile_call JIRA_SERVER html_content user_id url
          ≠ Thrown (Builtin (KeyError key))) ∧
  (∀ u, parse_user_profile_call JIRA_SERVER html_content user_id url = Returned u →
        id_ u = user_id ∧ profile_url u = url) ∧
  (∀ e, parse_user_profile_call JIRA_SERVER html_content user_id url = Thrown e →
        (e = ParserRejectedMarkup ∧ BeautifulSoup_call html_content = None)
        ∨ (e = ValueError ∧
           ∃ soup img src,
             BeautifulSoup_call html_content = Some soup ∧
             avatar_img soup = Some img ∧ get "src" img = Some src ∧
             PyStr.startswith "//" src = false ∧ PyStr.startswith "/" src = true ∧
             urljoin_call JIRA_SERVER src = None)).
Proof.
  split_and!.
  - intros key Hkey.
    apply parse_user_profile_call_thrown in Hkey as [[? _]|[? _]]; done.
  - intros u Hu.
    apply (parse_user_profile_call_returned JIRA_SERVER urljoin_of BeautifulSoup_of)
      in Hu; [|apply returns_of_library].
    destruct (parse_user_profile_total JIRA_SERVER urljoin_of BeautifulSoup_of
                html_content user_id url) as (u' & Hparse & Hid & Hurl).
    rewrite Hu in Hparse. by simplify_eq.
  - intros e. apply parse_user_profile_call_thrown.
Qed.



(** The loop on the examples: it returns for [jane] and [ghost]; the page
    of [tab] ends it with the [ValueError] of [urljoin], the page of
    [broken] with [ParserRejectedMarkup], before [ghost] is asked for; and
    with a negative delay it ends after the first of two ids. *)
Example main_loop_call_examples :
  (∃ jane, main_loop_call (H:=edge_world) (H0:=example_library) default_JIRA_SERVER
             plain_session "avatars" ["jane"; "ghost"] ([], ∅)
           = Returned ([SavedUser jane (Some "jane.png")], 1,
                       ([jane_url; "https://issues.jenkins.io/avatars/jane.png";
                         "https://issues.jenkins.io/secure/ViewProfile.jspa?name=ghost"],
                        {["avatars/jane.png" := "PNG"]}))) ∧
  main_loop_call (H:=edge_world) (H0:=example_library) default_JIRA_SERVER
    plain_session "avatars" ["jane"; "tab"; "ghost"] ([], ∅) = Thrown ValueError ∧
  main_loop_call (H:=edge_world) (H0:=example_library) default_JIRA_SERVER
    plain_session "avatars" ["broken"; "ghost"] ([], ∅) = Thrown ParserRejectedMarkup ∧
  main_loop_call (H:=edge_world) (H0:=negative_delay_library) default_JIRA_SERVER
    plain_session "avatars" ["jane"; "ghost"] ([], ∅) = Thrown ValueError ∧
  ∃ st, main_loop_call (H:=edge_world) (H0:=negative_delay_library) default_JIRA_SERVER
          plain_session "avatars" ["jane"] ([], ∅) = Returned st.
Proof.
  split_and!; [eexists; vm_compute; reflexivity|by vm_compute..|eexists; by vm_compute].
Qed.

Lemma get_session_reads_cookie_header_witness :
  ∃ s, get_session
         (cookie_header [("JSESSIONID", "abc123"); ("atlassian.xsrf.token", "B=1");
                         ("q", quoted_value)]) "" "" ∅ = Some s ∧
       session_cookies s
       = {["JSESSIONID" := "abc123"; "atlassian.xsrf.token" := "B=1";
           "q" := double_quote +:+ "xy" +:+ double_quote]}.
Proof.
  destruct (get_session_reads_cookie_header
              [("JSESSIONID", "abc123"); ("atlassian.xsrf.token", "B=1");
               ("q", quoted_value)] "" "" ∅)
    as (s & Hs & Hcookies & _).
  - repeat constructor.
  - exists s. split; [exact Hs|]. rewrite Hcookies. by vm_compute.
Defined.
